(** * WHILL EU asset management: the asset lifecycle engine of [app.py]

    A shallow embedding of the depreciation calculator ([calc_depreciation])
    and of the request handlers that move assets and sale/disposal
    transactions through their approval workflow ([approve_asset],
    [approve_transaction], [asset_edit], [location_add],
    [transaction_submit]; then [asset_new], [update_life], [transaction_add],
    [allowed_file], the depreciation and transactions pages and [login]),
    followed by the properties proved about them.

    Conventions of the embedding.
    - The three tables the handlers touch ([assets], [location_history],
      [sales_disposal]) are lists of rows in insertion order; a nullable SQL
      column is an [option], a NOT NULL column is a plain value.
    - Python [float] and SQL NUMERIC values are exact rationals ([Q]): the
      arithmetic of the calculator is modelled without binary rounding
      error, and [round(x, 2)] is rounding to the nearest hundredth, ties to
      the even hundredth.
    - A handler is a computation in a reader/state/exception monad: it reads
      the request context (session, form, clocks, mail configuration),
      updates the store, and either returns a response or raises.  Every
      [execute] commits on its own, so the store keeps the statements that
      ran before an exception. *)

From Stdlib Require Import ZArith QArith Qround Qabs Qminmax Qpower.
From Stdlib Require Import List String Ascii Bool Lia Lqa.
From Stdlib Require Import DecimalString Permutation.
Import ListNotations.

Local Open Scope string_scope.
Local Open Scope list_scope.
Local Open Scope Z_scope.

(* ------------------------------------------------------------------ *)
(** ** Python values and builtins *)

(** [x or d] for an optional value with Python truthiness [truthy]. *)
Definition py_or {A : Type} (truthy : A -> bool) (x : option A) (d : A) : A :=
  match x with
  | Some v => if truthy v then v else d
  | None => d
  end.

Definition truthy_str (s : string) : bool := negb (s =? "")%string.
Definition truthy_int (n : Z) : bool := negb (n =? 0).
Definition truthy_float (x : Q) : bool := negb (Qeq_bool x 0).

(** [dict.get(k, d)] on a row read with [SELECT *]: the key is present, so
    the default is never used and a NULL comes back as [None]. *)
Definition row_get {A : Type} (x : option A) (d : A) : option A := x.

(** [s1 == s2] where the left side may be [None]. *)
Definition opt_str_eqb (x : option string) (s : string) : bool :=
  match x with
  | Some v => (v =? s)%string
  | None => false
  end.

(** [s[:10]]. *)
Definition first10 (s : string) : string := substring 0 10 s.

(** Nearest integer, ties to even. *)
Definition round_half_even (q : Q) : Z :=
  let f := Qfloor q in
  match (q - inject_Z f ?= 1 # 2)%Q with
  | Lt => f
  | Gt => f + 1
  | Eq => if Z.even f then f else f + 1
  end.

(** [round(x, 2)]; the result is kept in lowest terms. *)
Definition round2 (x : Q) : Q := Qred (Qmake (round_half_even (x * 100)) 100).

(** Python's [min(a, b)] and [max(a, b)]: the first argument wins unless the
    second is strictly smaller (resp. larger). *)
Definition py_min (a b : Q) : Q :=
  match (b ?= a)%Q with Lt => b | _ => a end.
Definition py_max (a b : Q) : Q :=
  match (b ?= a)%Q with Gt => b | _ => a end.

(* ------------------------------------------------------------------ *)
(** ** Calendar dates ([datetime.date]) *)

Record date : Type := mkdate { year : Z; month : Z; day : Z }.

Definition is_leap (y : Z) : bool :=
  (y mod 4 =? 0) && (negb (y mod 100 =? 0) || (y mod 400 =? 0)).

Definition days_in_month (y m : Z) : Z :=
  if m =? 2 then (if is_leap y then 29 else 28)
  else if (m =? 4) || (m =? 6) || (m =? 9) || (m =? 11) then 30
  else 31.

Definition valid_date (d : date) : bool :=
  (1 <=? year d) && (year d <=? 9999) &&
  (1 <=? month d) && (month d <=? 12) &&
  (1 <=? day d) && (day d <=? days_in_month (year d) (month d)).

Definition digit (c : ascii) : option Z :=
  let n := Z.of_nat (nat_of_ascii c) in
  if (48 <=? n) && (n <=? 57) then Some (n - 48) else None.

Definition digits2 (a b : ascii) : option Z :=
  match digit a, digit b with
  | Some x, Some y => Some (10 * x + y)
  | _, _ => None
  end.

Definition digits4 (a b c d : ascii) : option Z :=
  match digits2 a b, digits2 c d with
  | Some x, Some y => Some (100 * x + y)
  | _, _ => None
  end.

Definition is_dash (c : ascii) : bool := (c =? "-")%char.

(** [datetime.date.fromisoformat] on the calendar format [YYYY-MM-DD], the
    one format every Python version reads; [None] stands for the
    [ValueError] raised on anything else. *)
Definition fromisoformat (s : string) : option date :=
  match s with
  | String y1 (String y2 (String y3 (String y4 (String s1
      (String m1 (String m2 (String s2 (String d1 (String d2 EmptyString))))))))) =>
      match digits4 y1 y2 y3 y4, digits2 m1 m2, digits2 d1 d2 with
      | Some y, Some m, Some d =>
          let r := mkdate y m d in
          if is_dash s1 && is_dash s2 && valid_date r then Some r else None
      | _, _, _ => None
      end
  | _ => None
  end.

Definition date_leb (a b : date) : bool :=
  (year a <? year b) ||
  ((year a =? year b) &&
   ((month a <? month b) || ((month a =? month b) && (day a <=? day b)))).

(* ------------------------------------------------------------------ *)
(** ** Rows of the three tables (the CREATE TABLE statements of [init_db]) *)

Definition timestamp : Type := Z.

Record asset_row : Type := mk_asset {
  a_id : Z;                              (* id SERIAL PRIMARY KEY *)
  asset_id : string;                     (* TEXT UNIQUE NOT NULL *)
  serial_number : string;                (* TEXT NOT NULL *)
  asset_name : string;                   (* TEXT NOT NULL *)
  asset_type : option string;
  model : option string;
  purchase_date : option string;
  purchase_value : option Q;             (* NUMERIC *)
  currency : option string;
  dep_method : option string;
  useful_life_months : option Z;         (* INTEGER *)
  current_location : option string;
  status : option string;
  responsible : option string;
  notes : option string;
  approval_status : option string;
  created_at : option timestamp;
  updated_at : option timestamp
}.

Record lh_row : Type := mk_lh {
  lh_id : Z;
  lh_asset_id : string;                  (* NOT NULL REFERENCES assets(asset_id) *)
  lh_date_from : option string;
  lh_date_to : option string;
  lh_location : option string;
  lh_country : option string;
  lh_customer : option string;
  lh_purpose : option string;
  lh_shipped_by : option string;
  lh_notes : option string;
  lh_created_at : option timestamp;
  lh_created_by : option string
}.

Record sd_row : Type := mk_sd {
  sd_id : Z;
  sd_asset_id : string;                  (* NOT NULL REFERENCES assets(asset_id) *)
  sd_tx_type : option string;
  sd_tx_date : option string;
  sd_book_value_at_tx : option Q;
  sd_sale_price : option Q;
  sd_buyer : option string;
  sd_buyer_contact : option string;
  sd_invoice_ref : option string;
  sd_notes : option string;
  sd_approval_status : option string;
  sd_approved_by : option string;
  sd_approved_at : option timestamp;
  sd_reject_reason : option string;
  sd_created_at : option timestamp;
  sd_created_by : option string
}.

(** What [send_approval_email] hands to the SMTP server.  The HTML body is
    kept as the values its template interpolates. *)
Record email : Type := mk_email {
  subject : string;
  body_tx_type : string;
  body_asset_id : string;
  body_asset_name : string;
  body_book_value : Q
}.

(** The mutable world of a request: the database, the mail that left, the
    flashed messages. *)
Record Store : Type := mk_store {
  assets : list asset_row;
  location_history : list lh_row;
  sales_disposal : list sd_row;
  location_history_id_seq : Z;           (* next value of the SERIAL column *)
  outbox : list email;
  flashes : list (string * string)
}.

(** What a request reads and does not change.  The statements of one request
    see one value of [NOW()]. *)
Record Ctx : Type := mk_ctx {
  session_user : option string;          (* session.get("user") *)
  request_method : string;
  form : list (string * string);         (* request.form, a multi-dict *)
  today : date;                          (* datetime.date.today() *)
  now : timestamp;                       (* NOW() *)
  EMAIL_ENABLED : bool;
  smtp_ok : bool                         (* whether the SMTP exchange succeeds *)
}.

Definition APPROVERS : list string := ["Yuki"; "Lo"].

(* ------------------------------------------------------------------ *)
(** ** The handler monad *)

Inductive exn : Type :=
| ZeroDivisionError
| TypeError
| AttributeError
| KeyError
| ValueError
| BadRequestKeyError
| IntegrityError.

Inductive outcome (A : Type) : Type :=
| Ok (a : A)
| Raise (e : exn).
Arguments Ok {A} a.
Arguments Raise {A} e.

Definition M (A : Type) : Type := Ctx -> Store -> outcome A * Store.

Definition ret {A : Type} (a : A) : M A := fun _ s => (Ok a, s).
Definition raise {A : Type} (e : exn) : M A := fun _ s => (Raise e, s).
Definition bind {A B : Type} (m : M A) (k : A -> M B) : M B :=
  fun c s =>
    match m c s with
    | (Ok a, s') => k a c s'
    | (Raise e, s') => (Raise e, s')
    end.
Definition ask : M Ctx := fun c s => (Ok c, s).
Definition get : M Store := fun _ s => (Ok s, s).
Definition put (s : Store) : M unit := fun _ _ => (Ok tt, s).

Notation "x <- m ;; k" := (bind m (fun x => k))
  (at level 61, m at next level, right associativity).
Notation "m ;; k" := (bind m (fun _ => k))
  (at level 61, right associativity).

(** The store a computation leaves, and what it returns. *)
Definition exec {A : Type} (m : M A) (c : Ctx) (s : Store) : Store := snd (m c s).
Definition eval {A : Type} (m : M A) (c : Ctx) (s : Store) : outcome A := fst (m c s).

(** [datetime.date.today()]. *)
Definition date_today : M date := c <- ask ;; ret (today c).

(** True division [a / b]. *)
Definition py_div (a b : Q) : M Q :=
  if Qeq_bool b 0 then raise ZeroDivisionError else ret (a / b)%Q.

(** [a ** n] for a float base and an int exponent. *)
Definition py_pow (a : Q) (n : Z) : M Q :=
  if Qeq_bool a 0 && (n <? 0) then raise ZeroDivisionError else ret (a ^ n)%Q.

(* ------------------------------------------------------------------ *)
(** ** Depreciation *)

Record Snapshot : Type := mk_snapshot {
  monthly : Q;
  accumulated : Q;
  book_value : Q;
  months_elapsed : Z;
  fully_dep : bool
}.

(** The four locals the function reads from the row. *)
Definition asset_pv (asset : asset_row) : Q :=
  py_or truthy_float (purchase_value asset) 0%Q.
Definition asset_pd (asset : asset_row) : string :=
  first10 (py_or truthy_str (purchase_date asset) "").
Definition asset_meth (asset : asset_row) : string :=
  py_or truthy_str (dep_method asset) "None".
Definition asset_life (asset : asset_row) : Z :=
  py_or truthy_int (useful_life_months asset) 60.

(** [max(0, (today.year-start.year)*12 + (today.month-start.month))]. *)
Definition months_between (start today : date) : Z :=
  Z.max 0 ((year today - year start) * 12 + (month today - month start)).

Definition calc_depreciation (asset : asset_row) : M Snapshot :=
  let pv := asset_pv asset in
  let pd := asset_pd asset in
  let meth := asset_meth asset in
  let life := asset_life asset in
  if negb (truthy_str pd) || Qeq_bool pv 0 || (meth =? "None")%string then
    ret (mk_snapshot 0 0 pv 0 false)
  else
    match fromisoformat pd with
    | None => ret (mk_snapshot 0 0 pv 0 false)
    | Some start =>
        today <- date_today ;;
        let months := months_between start today in
        r <- (if (meth =? "Straight-Line")%string then
                monthly <- py_div pv (inject_Z life) ;;
                let accumulated := py_min pv (monthly * inject_Z months)%Q in
                let book_value := py_max 0 (pv - accumulated)%Q in
                ret (monthly, accumulated, book_value)
              else if (meth =? "Declining Balance")%string then
                q <- py_div 2 (inject_Z life) ;;
                mr <- py_div q 12 ;;
                p <- py_pow (1 - mr)%Q months ;;
                let book_value := (pv * p)%Q in
                let accumulated := (pv - book_value)%Q in
                let monthly := (book_value * mr)%Q in
                ret (monthly, accumulated, book_value)
              else
                ret (0%Q, 0%Q, pv)) ;;
        let '(monthly, accumulated, book_value) := r in
        ret (mk_snapshot (round2 monthly) (round2 accumulated) (round2 book_value)
               months (life <=? months))
    end.

(* ------------------------------------------------------------------ *)
(** ** Request, session and form helpers *)

Inductive response : Type :=
| Redirect (endpoint : string) (arg : option string)
| Render (template : string).

Fixpoint assoc (k : string) (l : list (string * string)) : option string :=
  match l with
  | [] => None
  | (k', v) :: l' => if (k' =? k)%string then Some v else assoc k l'
  end.

(** [request.form.get(k)], [request.form.get(k, d)] and [request.form[k]]. *)
Definition form_get_opt (k : string) : M (option string) :=
  c <- ask ;; ret (assoc k (form c)).
Definition form_value (c : Ctx) (k d : string) : string :=
  match assoc k (form c) with Some v => v | None => d end.
Definition form_get (k d : string) : M string :=
  c <- ask ;; ret (form_value c k d).
Definition form_item (k : string) : M string :=
  c <- ask ;;
  match assoc k (form c) with
  | Some v => ret v
  | None => raise BadRequestKeyError
  end.

(** [session["user"]]. *)
Definition session_item_user : M string :=
  c <- ask ;;
  match session_user c with
  | Some u => ret u
  | None => raise KeyError
  end.

Definition require_login : M (option response) :=
  c <- ask ;;
  match session_user c with
  | None => ret (Some (Redirect "login" None))
  | Some _ => ret None
  end.

Definition is_approver : M bool :=
  c <- ask ;;
  ret (match session_user c with
       | Some u => existsb (String.eqb u) APPROVERS
       | None => false
       end).

Definition flash (message category : string) : M unit :=
  s <- get ;;
  put (mk_store (assets s) (location_history s) (sales_disposal s)
         (location_history_id_seq s) (outbox s)
         (flashes s ++ [(message, category)])).

(** [str(x)] of an optional string. *)
Definition py_str (x : option string) : string :=
  match x with Some v => v | None => "None" end.

(** [row[k]] and [row.get(k)] on the result of [fetchone], which is [None]
    when no row matched. *)
Definition subscript {R : Type} (row : option R) : M R :=
  match row with Some r => ret r | None => raise TypeError end.
Definition attribute {R : Type} (row : option R) : M R :=
  match row with Some r => ret r | None => raise AttributeError end.

(* ---- int(s) and float(s) on form strings ---- *)

Definition is_space (c : ascii) : bool :=
  let n := nat_of_ascii c in
  (Nat.eqb n 32) || (Nat.leb 9 n && Nat.leb n 13).

Fixpoint lstrip (l : list ascii) : list ascii :=
  match l with
  | c :: l' => if is_space c then lstrip l' else l
  | [] => []
  end.

Definition strip (l : list ascii) : list ascii := rev (lstrip (rev (lstrip l))).

(** Leading decimal digits of [l] read onto [acc]: the value, how many
    digits were read, and the rest. *)
Fixpoint read_digits (l : list ascii) (acc : Z) (n : Z) : Z * Z * list ascii :=
  match l with
  | c :: l' =>
      match digit c with
      | Some d => read_digits l' (10 * acc + d) (n + 1)
      | None => (acc, n, l)
      end
  | [] => (acc, n, [])
  end.

Definition read_sign (l : list ascii) : Z * list ascii :=
  match l with
  | c :: l' =>
      if (c =? "-")%char then (-1, l')
      else if (c =? "+")%char then (1, l')
      else (1, l)
  | [] => (1, [])
  end.

(** [int(s)] for a decimal literal with optional sign and surrounding
    blanks; [None] is [ValueError]. *)
Definition int_of_string (s : string) : option Z :=
  let '(sg, l) := read_sign (strip (list_ascii_of_string s)) in
  let '(v, n, rest) := read_digits l 0 0 in
  match rest with
  | [] => if 0 <? n then Some (sg * v) else None
  | _ => None
  end.

(** [float(s)] for a decimal literal: optional sign, digits with an optional
    fraction, optional exponent, surrounding blanks; [None] is [ValueError].
    The spellings of infinity and NaN, which have no rational value, and
    digit-group underscores are not read. *)
Definition float_of_string (s : string) : option Q :=
  let '(sg, l) := read_sign (strip (list_ascii_of_string s)) in
  let '(ip, n1, l1) := read_digits l 0 0 in
  let '(mant, n2, l2) :=
    match l1 with
    | c :: l1' => if (c =? ".")%char then read_digits l1' ip 0 else (ip, 0, l1)
    | [] => (ip, 0, [])
    end in
  if negb (0 <? n1 + n2) then None
  else
    let base := (inject_Z (sg * mant) / inject_Z (10 ^ n2))%Q in
    match l2 with
    | [] => Some (Qred base)
    | c :: l3 =>
        if (c =? "e")%char || (c =? "E")%char then
          let '(esg, l4) := read_sign l3 in
          let '(ev, n3, l5) := read_digits l4 0 0 in
          match l5 with
          | [] => if 0 <? n3 then Some (Qred (base * 10 ^ (esg * ev))%Q) else None
          | _ => None
          end
        else None
    end.

Definition py_int (s : string) : M Z :=
  match int_of_string s with Some n => ret n | None => raise ValueError end.
Definition py_float (s : string) : M Q :=
  match float_of_string s with Some x => ret x | None => raise ValueError end.

(* ------------------------------------------------------------------ *)
(** ** SQL statements *)

(** [UPDATE t SET ... WHERE ...]. *)
Definition sql_update {R : Type} (where_ : R -> bool) (set_ : R -> R)
    (t : list R) : list R :=
  map (fun r => if where_ r then set_ r else r) t.

(** [fetchone] of a [SELECT * ... WHERE ...]. *)
Definition fetchone_asset (where_ : asset_row -> bool) : M (option asset_row) :=
  s <- get ;; ret (find where_ (assets s)).
Definition fetchone_tx (where_ : sd_row -> bool) : M (option sd_row) :=
  s <- get ;; ret (find where_ (sales_disposal s)).

Definition execute_update_assets (where_ : asset_row -> bool)
    (set_ : asset_row -> asset_row) : M unit :=
  s <- get ;;
  put (mk_store (sql_update where_ set_ (assets s)) (location_history s)
         (sales_disposal s) (location_history_id_seq s) (outbox s) (flashes s)).

Definition execute_update_location_history (where_ : lh_row -> bool)
    (set_ : lh_row -> lh_row) : M unit :=
  s <- get ;;
  put (mk_store (assets s) (sql_update where_ set_ (location_history s))
         (sales_disposal s) (location_history_id_seq s) (outbox s) (flashes s)).

Definition execute_update_sales_disposal (where_ : sd_row -> bool)
    (set_ : sd_row -> sd_row) : M unit :=
  s <- get ;;
  put (mk_store (assets s) (location_history s)
         (sql_update where_ set_ (sales_disposal s))
         (location_history_id_seq s) (outbox s) (flashes s)).

(** [INSERT INTO location_history (...) VALUES (...)]: the row takes the next
    id and [NOW()] as [created_at]; the foreign key on [asset_id] refuses a
    row whose asset does not exist (the id drawn from the sequence is lost). *)
Definition execute_insert_location_history
    (aid : string) (date_from date_to location country customer purpose
     shipped_by notes_ created_by : option string) : M unit :=
  c <- ask ;;
  s <- get ;;
  let n := location_history_id_seq s in
  if existsb (fun a => (asset_id a =? aid)%string) (assets s) then
    put (mk_store (assets s)
           (location_history s ++
              [mk_lh n aid date_from date_to location country customer purpose
                 shipped_by notes_ (Some (now c)) created_by])
           (sales_disposal s) (n + 1) (outbox s) (flashes s))
  else
    put (mk_store (assets s) (location_history s) (sales_disposal s) (n + 1)
           (outbox s) (flashes s)) ;;
    raise IntegrityError.

(** [send_approval_email]: nothing when mail is off; a failed SMTP exchange
    is printed and swallowed. *)
Definition send_approval_email (e : email) : M unit :=
  c <- ask ;;
  if negb (EMAIL_ENABLED c) then ret tt
  else if smtp_ok c then
    s <- get ;;
    put (mk_store (assets s) (location_history s) (sales_disposal s)
           (location_history_id_seq s) (outbox s ++ [e]) (flashes s))
  else ret tt.

(* ---- the SET clauses ---- *)

(** [SET approval_status=..., status=...]. *)
Definition set_approval_and_status (ap st : option string) (a : asset_row) : asset_row :=
  mk_asset (a_id a) (asset_id a) (serial_number a) (asset_name a) (asset_type a)
    (model a) (purchase_date a) (purchase_value a) (currency a) (dep_method a)
    (useful_life_months a) (current_location a) st (responsible a) (notes a)
    ap (created_at a) (updated_at a).

(** [SET approval_status=..., notes=...]. *)
Definition set_approval_and_notes (ap nt : option string) (a : asset_row) : asset_row :=
  mk_asset (a_id a) (asset_id a) (serial_number a) (asset_name a) (asset_type a)
    (model a) (purchase_date a) (purchase_value a) (currency a) (dep_method a)
    (useful_life_months a) (current_location a) (status a) (responsible a) nt
    ap (created_at a) (updated_at a).

(** [SET status=..., updated_at=NOW()]. *)
Definition set_status (st : option string) (t : timestamp) (a : asset_row) : asset_row :=
  mk_asset (a_id a) (asset_id a) (serial_number a) (asset_name a) (asset_type a)
    (model a) (purchase_date a) (purchase_value a) (currency a) (dep_method a)
    (useful_life_months a) (current_location a) st (responsible a) (notes a)
    (approval_status a) (created_at a) (Some t).

(** [SET current_location=..., status=..., updated_at=NOW()]. *)
Definition set_location_and_status (loc st : option string) (t : timestamp)
    (a : asset_row) : asset_row :=
  mk_asset (a_id a) (asset_id a) (serial_number a) (asset_name a) (asset_type a)
    (model a) (purchase_date a) (purchase_value a) (currency a) (dep_method a)
    (useful_life_months a) loc st (responsible a) (notes a)
    (approval_status a) (created_at a) (Some t).

(** The SET clause of [asset_edit]. *)
Definition set_edited (sn an : string) (ty md pdate : option string) (pval : option Q)
    (cur meth : option string) (life : option Z) (loc st resp nt : option string)
    (t : timestamp) (a : asset_row) : asset_row :=
  mk_asset (a_id a) (asset_id a) sn an ty md pdate pval cur meth life loc st resp nt
    (approval_status a) (created_at a) (Some t).

(** [SET date_to=...]. *)
Definition set_date_to (d : option string) (r : lh_row) : lh_row :=
  mk_lh (lh_id r) (lh_asset_id r) (lh_date_from r) d (lh_location r) (lh_country r)
    (lh_customer r) (lh_purpose r) (lh_shipped_by r) (lh_notes r) (lh_created_at r)
    (lh_created_by r).

(** [SET approval_status=..., approved_by=..., approved_at=NOW()], with
    [reject_reason] as well when [rr] gives one. *)
Definition set_decision (ap : option string) (rr : option (option string))
    (by_ : option string) (t : timestamp) (x : sd_row) : sd_row :=
  mk_sd (sd_id x) (sd_asset_id x) (sd_tx_type x) (sd_tx_date x) (sd_book_value_at_tx x)
    (sd_sale_price x) (sd_buyer x) (sd_buyer_contact x) (sd_invoice_ref x) (sd_notes x)
    ap by_ (Some t)
    (match rr with Some r => r | None => sd_reject_reason x end)
    (sd_created_at x) (sd_created_by x).

(** [SET approval_status=...]. *)
Definition set_tx_approval (ap : option string) (x : sd_row) : sd_row :=
  mk_sd (sd_id x) (sd_asset_id x) (sd_tx_type x) (sd_tx_date x) (sd_book_value_at_tx x)
    (sd_sale_price x) (sd_buyer x) (sd_buyer_contact x) (sd_invoice_ref x) (sd_notes x)
    ap (sd_approved_by x) (sd_approved_at x) (sd_reject_reason x)
    (sd_created_at x) (sd_created_by x).

(** [date_to IS NULL OR date_to='']. *)
Definition is_open (r : lh_row) : bool :=
  match lh_date_to r with
  | None => true
  | Some d => (d =? "")%string
  end.

(* ------------------------------------------------------------------ *)
(** ** The handlers *)

(** POST /approve/asset/<aid>. *)
Definition approve_asset (aid : Z) : M response :=
  r <- require_login ;;
  match r with
  | Some resp => ret resp
  | None =>
      ok <- is_approver ;;
      if negb ok then
        flash "Only Yuki or Lo can approve." "error" ;;
        ret (Redirect "dashboard" None)
      else
        action <- form_get_opt "action" ;;
        reason <- form_get "reason" "" ;;
        asset <- fetchone_asset (fun a => a_id a =? aid) ;;
        (if opt_str_eqb action "approve" then
           execute_update_assets (fun a => a_id a =? aid)
             (set_approval_and_status (Some "approved") (Some "Active")) ;;
           a <- subscript asset ;;
           user <- session_item_user ;;
           execute_insert_location_history (asset_id a)
             (row_get (purchase_date a) "") None
             (row_get (current_location a) "") (Some "") None
             (Some "Initial receipt") None None (Some user) ;;
           flash ("✅ Asset " ++ asset_id a ++ " approved.")%string "success"
         else
           a <- attribute asset ;;
           execute_update_assets (fun a => a_id a =? aid)
             (set_approval_and_notes (Some "rejected")
                (Some ("[REJECTED: " ++ reason ++ "] " ++ py_or truthy_str (notes a) "")%string)) ;;
           flash ("❌ Asset " ++ asset_id a ++ " rejected.")%string "error") ;;
        ret (Redirect "dashboard" None)
  end.

(** POST /approve/transaction/<tid>. *)
Definition approve_transaction (tid : Z) : M response :=
  r <- require_login ;;
  match r with
  | Some resp => ret resp
  | None =>
      ok <- is_approver ;;
      if negb ok then
        flash "Only Yuki or Lo can approve." "error" ;;
        ret (Redirect "dashboard" None)
      else
        action <- form_get_opt "action" ;;
        reason <- form_get "reason" "" ;;
        tx <- fetchone_tx (fun t => sd_id t =? tid) ;;
        c <- ask ;;
        (if opt_str_eqb action "approve" then
           user <- session_item_user ;;
           execute_update_sales_disposal (fun t => sd_id t =? tid)
             (set_decision (Some "approved") None (Some user) (now c)) ;;
           t <- subscript tx ;;
           execute_update_assets (fun a => (asset_id a =? sd_asset_id t)%string)
             (set_status
                (Some (if opt_str_eqb (sd_tx_type t) "Sale" then "Sold" else "Disposed"))
                (now c)) ;;
           flash ("✅ " ++ py_str (sd_tx_type t) ++ " for " ++ sd_asset_id t
                    ++ " approved.")%string
             "success"
         else
           user <- session_item_user ;;
           execute_update_sales_disposal (fun t => sd_id t =? tid)
             (set_decision (Some "rejected") (Some (Some reason)) (Some user) (now c)) ;;
           t <- subscript tx ;;
           flash ("❌ " ++ py_str (sd_tx_type t) ++ " for " ++ sd_asset_id t
                    ++ " rejected.")%string
             "error") ;;
        ret (Redirect "dashboard" None)
  end.

(** GET and POST /assets/<asset_id>/edit. *)
Definition asset_edit (aid : string) : M response :=
  r <- require_login ;;
  match r with
  | Some resp => ret resp
  | None =>
      asset <- fetchone_asset (fun a => (asset_id a =? aid)%string) ;;
      match asset with
      | None => ret (Redirect "assets" None)
      | Some _ =>
          c <- ask ;;
          if (request_method c =? "POST")%string then
            sn <- form_item "serial_number" ;;
            an <- form_item "asset_name" ;;
            ty <- form_item "asset_type" ;;
            md <- form_get "model" "" ;;
            pdate <- form_get "purchase_date" "" ;;
            pvs <- form_item "purchase_value" ;;
            pval <- (if truthy_str pvs then py_float pvs else ret 0%Q) ;;
            cur <- form_get "currency" "EUR" ;;
            meth <- form_get "dep_method" "Declining Balance" ;;
            ls <- form_get_opt "useful_life_months" ;;
            life <- (match ls with
                     | Some l => if truthy_str l then py_int l else ret 60
                     | None => ret 60
                     end) ;;
            loc <- form_get "current_location" "" ;;
            st <- form_get "status" "Active" ;;
            resp <- form_get "responsible" "" ;;
            nt <- form_get "notes" "" ;;
            execute_update_assets (fun a => (asset_id a =? aid)%string)
              (set_edited sn an (Some ty) (Some md) (Some pdate) (Some pval) (Some cur)
                 (Some meth) (Some life) (Some loc) (Some st) (Some resp) (Some nt)
                 (now c)) ;;
            flash "Asset updated." "success" ;;
            ret (Redirect "asset_detail" (Some aid))
          else
            ret (Render "asset_form.html")
      end
  end.

(** POST /assets/<asset_id>/location/add. *)
Definition location_add (aid : string) : M response :=
  r <- require_login ;;
  match r with
  | Some resp => ret resp
  | None =>
      c <- ask ;;
      date_from <- form_get "date_from" "" ;;
      execute_update_location_history
        (fun r => (lh_asset_id r =? aid)%string && is_open r)
        (set_date_to (Some date_from)) ;;
      date_from' <- form_get "date_from" "" ;;
      date_to <- form_get "date_to" "" ;;
      location <- form_get "location" "" ;;
      country <- form_get "country" "" ;;
      customer <- form_get "customer" "" ;;
      purpose <- form_get "purpose" "" ;;
      shipped_by <- form_get "shipped_by" "" ;;
      nt <- form_get "notes" "" ;;
      user <- session_item_user ;;
      execute_insert_location_history aid (Some date_from') (Some date_to)
        (Some location) (Some country) (Some customer) (Some purpose)
        (Some shipped_by) (Some nt) (Some user) ;;
      location' <- form_get "location" "" ;;
      st <- form_get "status" "With Customer" ;;
      execute_update_assets (fun a => (asset_id a =? aid)%string)
        (set_location_and_status (Some location') (Some st) (now c)) ;;
      flash "Location updated." "success" ;;
      ret (Redirect "asset_detail" (Some aid))
  end.

(** POST /transaction/<tid>/submit. *)
Definition transaction_submit (tid : Z) : M response :=
  r <- require_login ;;
  match r with
  | Some resp => ret resp
  | None =>
      tx <- fetchone_tx (fun t => sd_id t =? tid) ;;
      match tx with
      | None =>
          flash "Transaction not found." "error" ;;
          ret (Redirect "transactions" None)
      | Some t =>
          execute_update_sales_disposal (fun t => sd_id t =? tid)
            (set_tx_approval (Some "pending")) ;;
          asset <- fetchone_asset (fun a => (asset_id a =? sd_asset_id t)%string) ;;
          send_approval_email
            (mk_email
               ("[WHILL Assets] Approval Request — " ++ py_str (sd_tx_type t)
                  ++ " for " ++ sd_asset_id t)%string
               (py_str (sd_tx_type t))
               (sd_asset_id t)
               (match asset with Some a => asset_name a | None => "" end)
               (py_or truthy_float (sd_book_value_at_tx t) 0%Q)) ;;
          flash "⏳ Submitted for approval." "success" ;;
          ret (Redirect "asset_detail" (Some (sd_asset_id t)))
      end
  end.

(* ------------------------------------------------------------------ *)
(** ** The wider world: id sequences, request mail, the session cookie *)

(** The approval requests [asset_new] and [transaction_add] hand to the SMTP
    server, as the values their templates interpolate. *)
Inductive request_mail : Type :=
| NewAssetMail (subject submitted_by aid serial name type_ currency_ value location : string)
| NewTransactionMail (subject tx_type submitted_by aid name : string)
    (book_value_ sale_price : Q).

(** The store together with what the remaining handlers touch: the SERIAL
    sequences of [assets] and [sales_disposal], the approval requests that
    left, and the session cookie the browser holds after the response (the
    next request carries it as [session_user]). *)
Record World : Type := mk_world {
  store : Store;
  assets_id_seq : Z;
  sales_disposal_id_seq : Z;
  sent : list request_mail;
  session : option string
}.

(** A request with the parts the first five handlers do not read. *)
Record Request : Type := mk_request {
  ctx : Ctx;
  referrer : option string;              (* request.referrer *)
  args : list (string * string)          (* request.args *)
}.

Definition set_store (s : Store) (w : World) : World :=
  mk_world s (assets_id_seq w) (sales_disposal_id_seq w) (sent w) (session w).
Definition set_assets_id_seq (n : Z) (w : World) : World :=
  mk_world (store w) n (sales_disposal_id_seq w) (sent w) (session w).
Definition set_sales_disposal_id_seq (n : Z) (w : World) : World :=
  mk_world (store w) (assets_id_seq w) n (sent w) (session w).
Definition set_sent (l : list request_mail) (w : World) : World :=
  mk_world (store w) (assets_id_seq w) (sales_disposal_id_seq w) l (session w).
Definition set_session (u : option string) (w : World) : World :=
  mk_world (store w) (assets_id_seq w) (sales_disposal_id_seq w) (sent w) u.

Definition W (A : Type) : Type := Request -> World -> outcome A * World.

Definition wret {A : Type} (a : A) : W A := fun _ w => (Ok a, w).
Definition wraise {A : Type} (e : exn) : W A := fun _ w => (Raise e, w).
Definition wbind {A B : Type} (m : W A) (k : A -> W B) : W B :=
  fun r w =>
    match m r w with
    | (Ok a, w') => k a r w'
    | (Raise e, w') => (Raise e, w')
    end.
Definition wask : W Request := fun r w => (Ok r, w).
Definition wget : W World := fun _ w => (Ok w, w).
Definition wput (w : World) : W unit := fun _ _ => (Ok tt, w).

(** A computation on the store, run in the world. *)
Definition lift {A : Type} (m : M A) : W A :=
  fun r w =>
    match m (ctx r) (store w) with
    | (o, s') => (o, set_store s' w)
    end.

Declare Scope world_scope.
Delimit Scope world_scope with world.
Notation "x <- m ;; k" := (wbind m (fun x => k))
  (at level 61, m at next level, right associativity) : world_scope.
Notation "m ;; k" := (wbind m (fun _ => k))
  (at level 61, right associativity) : world_scope.

Definition wexec {A : Type} (m : W A) (r : Request) (w : World) : World := snd (m r w).
Definition weval {A : Type} (m : W A) (r : Request) (w : World) : outcome A :=
  fst (m r w).

(** [int(f.get("useful_life_months", 60) or 60)]. *)
Definition form_life : M Z :=
  ls <- form_get_opt "useful_life_months" ;;
  match ls with
  | Some l => if truthy_str l then py_int l else ret 60
  | None => ret 60
  end.

(** [str(n)] of an int. *)
Definition py_str_int (n : Z) : string := NilZero.string_of_int (Z.to_int n).

(** [SET useful_life_months=..., updated_at=NOW()]. *)
Definition set_life (life : option Z) (t : timestamp) (a : asset_row) : asset_row :=
  mk_asset (a_id a) (asset_id a) (serial_number a) (asset_name a) (asset_type a)
    (model a) (purchase_date a) (purchase_value a) (currency a) (dep_method a)
    life (current_location a) (status a) (responsible a) (notes a)
    (approval_status a) (created_at a) (Some t).

Local Open Scope world_scope.

(** [INSERT INTO assets (...) VALUES (...)]: the row takes the next id and
    [NOW()] as [created_at] and [updated_at]; the primary key and the UNIQUE
    constraint on [asset_id] refuse a duplicate (the id drawn from the
    sequence is lost). *)
Definition execute_insert_assets (aid sn an : string) (ty md pdate : option string)
    (pval : option Q) (cur meth : option string) (life : option Z)
    (loc st resp nt ap : option string) : W unit :=
  r <- wask ;;
  w <- wget ;;
  let n := assets_id_seq w in
  let s := store w in
  if existsb (fun a => (a_id a =? n)%Z || (asset_id a =? aid)%string) (assets s) then
    wput (set_assets_id_seq (n + 1) w) ;;
    wraise IntegrityError
  else
    wput (set_assets_id_seq (n + 1)
            (set_store
               (mk_store
                  (assets s ++
                     [mk_asset n aid sn an ty md pdate pval cur meth life loc st resp nt
                        ap (Some (now (ctx r))) (Some (now (ctx r)))])
                  (location_history s) (sales_disposal s)
                  (location_history_id_seq s) (outbox s) (flashes s))
               w)).

(** [INSERT INTO sales_disposal (...) VALUES (...)]: next id, [NOW()] as
    [created_at], no decision yet; the primary key and the foreign key on
    [asset_id] are checked. *)
Definition execute_insert_sales_disposal (aid : string) (tx_type tx_date : option string)
    (bv sp : option Q) (buyer contact invoice nt ap created_by : option string) : W unit :=
  r <- wask ;;
  w <- wget ;;
  let n := sales_disposal_id_seq w in
  let s := store w in
  if existsb (fun a => (asset_id a =? aid)%string) (assets s)
     && negb (existsb (fun x => (sd_id x =? n)%Z) (sales_disposal s)) then
    wput (set_sales_disposal_id_seq (n + 1)
            (set_store
               (mk_store (assets s) (location_history s)
                  (sales_disposal s ++
                     [mk_sd n aid tx_type tx_date bv sp buyer contact invoice nt ap
                        None None None (Some (now (ctx r))) created_by])
                  (location_history_id_seq s) (outbox s) (flashes s))
               w))
  else
    wput (set_sales_disposal_id_seq (n + 1) w) ;;
    wraise IntegrityError.

(** [send_approval_email] on the requests of [asset_new] and
    [transaction_add]. *)
Definition send_request_mail (m : request_mail) : W unit :=
  r <- wask ;;
  if negb (EMAIL_ENABLED (ctx r)) then wret tt
  else if smtp_ok (ctx r) then
    w <- wget ;;
    wput (set_sent (sent w ++ [m]) w)
  else wret tt.

(** GET and POST /assets/new.  The arguments of the rendered form are not
    kept. *)
Definition asset_new : W response :=
  r <- lift require_login ;;
  match r with
  | Some resp => wret resp
  | None =>
      rq <- wask ;;
      let c := ctx rq in
      if (request_method c =? "POST")%string then
        let send_approval := opt_str_eqb (assoc "send_approval" (form c)) "yes" in
        let approval := if send_approval then "pending" else "approved" in
        let init_status :=
          if send_approval then "Pending Approval" else form_value c "status" "Active" in
        aid <- lift (form_item "asset_id") ;;
        sn <- lift (form_item "serial_number") ;;
        an <- lift (form_item "asset_name") ;;
        ty <- lift (form_item "asset_type") ;;
        pvs <- lift (form_item "purchase_value") ;;
        pval <- lift (if truthy_str pvs then py_float pvs else ret 0%Q) ;;
        life <- lift form_life ;;
        user <- lift session_item_user ;;
        execute_insert_assets aid sn an (Some ty)
          (Some (form_value c "model" "")) (Some (form_value c "purchase_date" ""))
          (Some pval) (Some (form_value c "currency" "EUR"))
          (Some (form_value c "dep_method" "Declining Balance")) (Some life)
          (Some (form_value c "current_location" "")) (Some init_status)
          (Some (form_value c "responsible" user)) (Some (form_value c "notes" ""))
          (Some approval) ;;
        if (approval =? "approved")%string then
          lift (execute_insert_location_history aid
                  (Some (form_value c "purchase_date" "")) None
                  (Some (form_value c "current_location" "")) (Some "") None
                  (Some "Initial receipt") None None (Some user)) ;;
          lift (flash ("✅ Asset " ++ aid ++ " added.")%string "success") ;;
          wret (Redirect "asset_detail" (Some aid))
        else
          send_request_mail
            (NewAssetMail
               ("[WHILL Assets] Approval Request — New Asset " ++ aid)%string
               user aid sn an ty (form_value c "currency" "EUR")
               (form_value c "purchase_value" "")
               (form_value c "current_location" "")) ;;
          lift (flash ("⏳ Asset " ++ aid ++ " submitted for approval.")%string
                  "success") ;;
          wret (Redirect "assets" None)
      else
        wret (Render "asset_form.html")
  end.

(** POST /assets/<asset_id>/update-life. *)
Definition update_life (aid : string) : W response :=
  r <- lift require_login ;;
  match r with
  | Some resp => wret resp
  | None =>
      rq <- wask ;;
      n <- lift form_life ;;
      let months := Z.max 1 n in
      lift (execute_update_assets (fun a => (asset_id a =? aid)%string)
              (set_life (Some months) (now (ctx rq)))) ;;
      lift (flash ("Depreciation period updated to " ++ py_str_int months
                     ++ " months.")%string "success") ;;
      wret (Redirect (py_or truthy_str (referrer rq) "depreciation") None)
  end.

(** POST /assets/<asset_id>/transaction/add. *)
Definition transaction_add (aid : string) : W response :=
  r <- lift require_login ;;
  match r with
  | Some resp => wret resp
  | None =>
      rq <- wask ;;
      let c := ctx rq in
      let send_approval := opt_str_eqb (assoc "send_approval" (form c)) "yes" in
      asset <- lift (fetchone_asset (fun a => (asset_id a =? aid)%string)) ;;
      a <- lift (attribute asset) ;;
      dep <- lift (calc_depreciation a) ;;
      let approval_status_ := if send_approval then "pending" else "draft" in
      sp <- lift (match assoc "sale_price" (form c) with
                  | Some v => if truthy_str v then py_float v else ret 0%Q
                  | None => ret 0%Q
                  end) ;;
      user <- lift session_item_user ;;
      execute_insert_sales_disposal aid
        (Some (form_value c "tx_type" "Sale")) (Some (form_value c "tx_date" ""))
        (Some (book_value dep)) (Some sp)
        (Some (form_value c "buyer" "")) (Some (form_value c "buyer_contact" ""))
        (Some (form_value c "invoice_ref" "")) (Some (form_value c "notes" ""))
        (Some approval_status_) (Some user) ;;
      (if send_approval then
         send_request_mail
           (NewTransactionMail
              ("[WHILL Assets] Approval Request — "
                 ++ py_str (assoc "tx_type" (form c)) ++ " for " ++ aid)%string
              (py_str (assoc "tx_type" (form c))) user aid (asset_name a)
              (book_value dep) sp) ;;
         lift (flash ("⏳ " ++ py_str (assoc "tx_type" (form c))
                        ++ " submitted for approval.")%string "success")
       else
         lift (flash ("💾 " ++ py_str (assoc "tx_type" (form c))
                        ++ " saved as draft.")%string "success")) ;;
      wret (Redirect "asset_detail" (Some aid))
  end.

Local Close Scope world_scope.

(* ------------------------------------------------------------------ *)
(** ** File names of uploads *)

Definition ALLOWED_EXT : list string :=
  ["pdf"; "png"; "jpg"; "jpeg"; "gif"; "docx"; "xlsx"; "msg"; "zip"].

(** ["." in f]. *)
Fixpoint has_dot (f : string) : bool :=
  match f with
  | EmptyString => false
  | String c f' => (c =? ".")%char || has_dot f'
  end.

(** [f.rsplit(".", 1)[1]] for a name that has a dot: what follows the last
    one. *)
Fixpoint after_last_dot (f : string) : string :=
  match f with
  | EmptyString => EmptyString
  | String c f' =>
      if has_dot f' then after_last_dot f'
      else if (c =? ".")%char then f' else String c f'
  end.

Definition lower_char (c : ascii) : ascii :=
  let n := nat_of_ascii c in
  if Nat.leb 65 n && Nat.leb n 90 then ascii_of_nat (n + 32) else c.

(** [s.lower()] on the letters A to Z.  No other letter lowers to a letter of
    an allowed extension, so the test below reads as in Python. *)
Fixpoint lower (s : string) : string :=
  match s with
  | EmptyString => EmptyString
  | String c s' => String (lower_char c) (lower s')
  end.

Definition allowed_file (f : string) : bool :=
  has_dot f && existsb (String.eqb (lower (after_last_dot f))) ALLOWED_EXT.

(* ------------------------------------------------------------------ *)
(** ** The depreciation and transactions pages *)

(** What a page handler answers: a template with its context, or a plain
    response.  Constants handed to the template are not kept. *)
Inductive answer (A : Type) : Type :=
| Page (template : string) (context : A)
| Answer (resp : response).
Arguments Page {A} template context.
Arguments Answer {A} resp.

(** [x NOT IN (...)] in SQL: unknown, hence not selected, when [x] is
    NULL. *)
Definition sql_not_in (x : option string) (l : list string) : bool :=
  match x with
  | Some v => negb (existsb (String.eqb v) l)
  | None => false
  end.

(** [for a in rows: a.update(f(a))]: every row with what [f] adds to it. *)
Fixpoint for_each {A B : Type} (f : A -> M B) (l : list A) : M (list (A * B)) :=
  match l with
  | [] => ret []
  | a :: l' =>
      b <- f a ;;
      rest <- for_each f l' ;;
      ret ((a, b) :: rest)
  end.

(** [sum(...)] of floats. *)
Definition py_sum (l : list Q) : Q := fold_left Qplus l 0%Q.

(** The context of [depreciation.html]. *)
Record depreciation_context : Type := mk_depreciation_context {
  dc_assets : list (asset_row * Snapshot);
  dc_total_monthly : Q;
  dc_total_book : Q;
  dc_total_purchase : Q;
  dc_f_type : string
}.

(** The columns of [assets] the transactions page selects beside [sd.*]. *)
Record asset_columns : Type := mk_asset_columns {
  j_asset_name : string;
  j_serial_number : string;
  j_asset_type : option string;
  j_purchase_value : option Q
}.

Definition columns_of (a : asset_row) : asset_columns :=
  mk_asset_columns (asset_name a) (serial_number a) (asset_type a) (purchase_value a).

(** The context of [transactions.html]: every transaction with the columns
    of its asset and its gain or loss. *)
Record transactions_context : Type := mk_transactions_context {
  tc_transactions : list (sd_row * asset_columns * option Q);
  tc_is_approver : bool
}.

(** The WHERE clause of the depreciation page. *)
Definition on_depreciation_page (f_type : string) (a : asset_row) : bool :=
  sql_not_in (status a) ["Sold"; "Disposed"]
  && opt_str_eqb (approval_status a) "approved"
  && (if truthy_str f_type then opt_str_eqb (asset_type a) f_type else true).

(** [round(sp - bv, 2) if row["tx_type"] == "Sale" else None]. *)
Definition gain_loss (t : sd_row) : option Q :=
  let sp := py_or truthy_float (sd_sale_price t) 0%Q in
  let bv := py_or truthy_float (sd_book_value_at_tx t) 0%Q in
  if opt_str_eqb (sd_tx_type t) "Sale" then Some (round2 (sp - bv)) else None.

(** [sales_disposal sd JOIN assets a ON sd.asset_id = a.asset_id]. *)
Definition join_assets (txs : list sd_row) (l : list asset_row) :
    list (sd_row * asset_columns) :=
  flat_map
    (fun t =>
       map (fun a => (t, columns_of a))
         (filter (fun a => (asset_id a =? sd_asset_id t)%string) l))
    txs.

Section Pages.

(** The order the database returns rows in depends on its collation: the two
    ORDER BY clauses are taken as given. *)
Variable order_by_type_and_id : list asset_row -> list asset_row.
Variable order_by_tx_date_desc :
  list (sd_row * asset_columns) -> list (sd_row * asset_columns).

Local Open Scope world_scope.

(** GET /depreciation. *)
Definition depreciation : W (answer depreciation_context) :=
  r <- lift require_login ;;
  match r with
  | Some resp => wret (Answer resp)
  | None =>
      rq <- wask ;;
      let f_type := match assoc "type" (args rq) with Some v => v | None => "" end in
      w <- wget ;;
      let rows :=
        order_by_type_and_id
          (filter (on_depreciation_page f_type) (assets (store w))) in
      rows' <- lift (for_each calc_depreciation rows) ;;
      wret (Page "depreciation.html"
              (mk_depreciation_context rows'
                 (py_sum (map (fun p => monthly (snd p)) rows'))
                 (py_sum (map (fun p => book_value (snd p)) rows'))
                 (py_sum (map (fun p => asset_pv (fst p)) rows'))
                 f_type))
  end.

(** GET /transactions. *)
Definition transactions : W (answer transactions_context) :=
  r <- lift require_login ;;
  match r with
  | Some resp => wret (Answer resp)
  | None =>
      w <- wget ;;
      let rows :=
        order_by_tx_date_desc
          (join_assets (sales_disposal (store w)) (assets (store w))) in
      ok <- lift is_approver ;;
      wret (Page "transactions.html"
              (mk_transactions_context
                 (map (fun p => (p, gain_loss (fst p))) rows) ok))
  end.

Local Close Scope world_scope.

End Pages.

(* ------------------------------------------------------------------ *)
(** ** Login *)

(** The characters [str.strip()] removes, as the bytes of their UTF-8
    encoding: U+0009..U+000D, U+001C..U+0020; U+0085 and U+00A0; U+1680,
    U+2000..U+200A, U+2028, U+2029, U+202F, U+205F and U+3000. *)
Definition is_space1 (c : ascii) : bool :=
  let n := nat_of_ascii c in
  (Nat.leb 9 n && Nat.leb n 13) || (Nat.leb 28 n && Nat.leb n 32).

Definition is_space2 (c1 c2 : ascii) : bool :=
  let n2 := nat_of_ascii c2 in
  Nat.eqb (nat_of_ascii c1) 194 && (Nat.eqb n2 133 || Nat.eqb n2 160).

Definition is_space3 (c1 c2 c3 : ascii) : bool :=
  let n1 := nat_of_ascii c1 in
  let n2 := nat_of_ascii c2 in
  let n3 := nat_of_ascii c3 in
  (Nat.eqb n1 225 && Nat.eqb n2 154 && Nat.eqb n3 128)
  || (Nat.eqb n1 226 && Nat.eqb n2 128
      && ((Nat.leb 128 n3 && Nat.leb n3 138)
          || Nat.eqb n3 168 || Nat.eqb n3 169 || Nat.eqb n3 175))
  || (Nat.eqb n1 226 && Nat.eqb n2 129 && Nat.eqb n3 159)
  || (Nat.eqb n1 227 && Nat.eqb n2 128 && Nat.eqb n3 128).

(** [s.lstrip()] on the bytes of [s]. *)
Fixpoint py_lstrip (l : list ascii) : list ascii :=
  match l with
  | c1 :: l1 =>
      if is_space1 c1 then py_lstrip l1
      else
        match l1 with
        | c2 :: l2 =>
            if is_space2 c1 c2 then py_lstrip l2
            else
              match l2 with
              | c3 :: l3 => if is_space3 c1 c2 c3 then py_lstrip l3 else l
              | [] => l
              end
        | [] => l
        end
  | [] => []
  end.

(** [s.rstrip()] on the bytes of [s] in reverse. *)
Fixpoint py_rstrip_rev (l : list ascii) : list ascii :=
  match l with
  | c1 :: l1 =>
      if is_space1 c1 then py_rstrip_rev l1
      else
        match l1 with
        | c2 :: l2 =>
            if is_space2 c2 c1 then py_rstrip_rev l2
            else
              match l2 with
              | c3 :: l3 => if is_space3 c3 c2 c1 then py_rstrip_rev l3 else l
              | [] => l
              end
        | [] => l
        end
  | [] => []
  end.

(** [s.strip()]. *)
Definition py_strip (s : string) : string :=
  string_of_list_ascii
    (rev (py_rstrip_rev (rev (py_lstrip (list_ascii_of_string s))))).

Local Open Scope world_scope.

(** GET and POST /.  The browser keeps the name in the session cookie; no
    table is read. *)
Definition login : W response :=
  rq <- wask ;;
  let c := ctx rq in
  if (request_method c =? "POST")%string then
    let user := py_strip (form_value c "user" "") in
    if truthy_str user then
      w <- wget ;;
      wput (set_session (Some user) w) ;;
      wret (Redirect "dashboard" None)
    else
      lift (flash "Please select your name." "error") ;;
      wret (Render "login.html")
  else
    wret (Render "login.html").

Local Close Scope world_scope.

(* ------------------------------------------------------------------ *)
(** ** Vocabulary of the properties *)

(** The open location entries of an asset. *)
Definition open_entries (aid : string) (s : Store) : list lh_row :=
  filter (fun r => (lh_asset_id r =? aid)%string && is_open r) (location_history s).

(** At most one open entry per asset. *)
Definition single_open (s : Store) : Prop :=
  forall aid, (List.length (open_entries aid s) <= 1)%nat.

(** Relocation requests, each for its asset and with its own context, served
    one after the other. *)
Definition relocate_all (calls : list (string * Ctx)) (s : Store) : Store :=
  fold_left (fun s call => exec (location_add (fst call)) (snd call) s) calls s.

(** The request names a start date. *)
Definition has_date_from (c : Ctx) : Prop := form_value c "date_from" "" <> "".

(** No two assets share an [asset_id] (the UNIQUE constraint). *)
Definition unique_asset_ids (s : Store) : Prop := NoDup (map asset_id (assets s)).

(** Every location entry belongs to an asset of the store (the foreign
    key). *)
Definition history_refers_to_assets (s : Store) : Prop :=
  forall r, In r (location_history s) ->
    existsb (fun a => (asset_id a =? lh_asset_id r)%string) (assets s) = true.

(** Two stores hold the same rows and the same sent mail (flashed messages
    and the history sequence may differ). *)
Definition same_tables (s s' : Store) : Prop :=
  assets s' = assets s /\
  location_history s' = location_history s /\
  sales_disposal s' = sales_disposal s /\
  outbox s' = outbox s.

(** Every row of [l] is still in [l'], at the same place, related to what it
    was by [keep]: nothing is deleted or reordered. *)
Definition rows_persist {R : Type} (keep : R -> R -> Prop) (l l' : list R) : Prop :=
  forall i x, nth_error l i = Some x ->
    exists x', nth_error l' i = Some x' /\ keep x x'.

(** The identity of an asset row. *)
Definition same_asset (a a' : asset_row) : Prop :=
  a_id a' = a_id a /\ asset_id a' = asset_id a /\ created_at a' = created_at a.

(** The columns of a transaction that are fixed when it is recorded. *)
Definition same_frozen_columns (t t' : sd_row) : Prop :=
  sd_id t' = sd_id t /\ sd_asset_id t' = sd_asset_id t /\
  sd_tx_type t' = sd_tx_type t /\ sd_tx_date t' = sd_tx_date t /\
  sd_book_value_at_tx t' = sd_book_value_at_tx t /\
  sd_sale_price t' = sd_sale_price t /\
  sd_created_by t' = sd_created_by t.

(** A transaction that no decision touched: approver, time and reason as
    they were, the approval status as it was or back to pending. *)
Definition undecided (t t' : sd_row) : Prop :=
  sd_approved_by t' = sd_approved_by t /\
  sd_approved_at t' = sd_approved_at t /\
  sd_reject_reason t' = sd_reject_reason t /\
  (sd_approval_status t' = sd_approval_status t \/
   sd_approval_status t' = Some "pending").

(** A location entry that at most had its end date set: every other column
    as it was, and the entry itself as it was if it was already closed. *)
Definition same_entry_but_end (e e' : lh_row) : Prop :=
  set_date_to None e' = set_date_to None e /\ (is_open e = false -> e' = e).

(* ------------------------------------------------------------------ *)
(** ** Sample data *)

Definition empty_store : Store := mk_store [] [] [] 1 [] [].

(** A request on day [d] with no session and no form. *)
Definition ctx_on (d : date) : Ctx := mk_ctx None "GET" [] d 0 false false.

(** The asset of the scenarios: bought on 2023-01-01 for 12000, 60 months of
    useful life, depreciated with [meth]. *)
Definition scenario_asset (pv : Q) (life : Z) (meth : string) : asset_row :=
  mk_asset 1 "DU-900" "SN-WHILL-0900" "Scenario unit" (Some "Demo Unit")
    (Some "WHILL Model C") (Some "2023-01-01") (Some pv) (Some "EUR")
    (Some meth) (Some life) (Some "NEN") (Some "Active") (Some "Minami")
    (Some "") (Some "approved") None None.

(** Row AD-001 of [_seed]. *)
Definition seed_AD_001 : asset_row :=
  mk_asset 6 "AD-001" "SN-AD-0001" "AD Device 1" (Some "AD Device")
    (Some "AD Model A") (Some "2021-06-01") (Some 3200%Q) (Some "EUR")
    (Some "Straight-Line") (Some 48) (Some "NEN") (Some "Active")
    (Some "Sachiko") (Some "") (Some "approved") None None.

(** Row DU-001 of [_seed]. *)
Definition seed_DU_001 : asset_row :=
  mk_asset 1 "DU-001" "SN-WHILL-0001" "Model C Demo Unit 1" (Some "Demo Unit")
    (Some "WHILL Model C") (Some "2022-04-01") (Some 8500%Q) (Some "EUR")
    (Some "Declining Balance") (Some 60) (Some "Germany") (Some "With Customer")
    (Some "Minami") (Some "Deployed to Munich customer") (Some "approved")
    None None.

(** An asset whose purchase date is not in ISO format. *)
Definition misdated_asset : asset_row :=
  mk_asset 2 "DU-901" "SN-WHILL-0901" "Misdated unit" (Some "Demo Unit")
    (Some "WHILL Model C") (Some "01/02/2023") (Some 7200%Q) (Some "EUR")
    (Some "Straight-Line") (Some 60) (Some "NEN") (Some "Active") (Some "Minami")
    (Some "") (Some "approved") None None.

(** An asset whose useful life is NULL. *)
Definition lifeless_asset : asset_row :=
  mk_asset 3 "DU-902" "SN-WHILL-0902" "Unit without life" (Some "Demo Unit")
    (Some "WHILL Model C") (Some "2023-01-01") (Some 12000%Q) (Some "EUR")
    (Some "Straight-Line") None (Some "NEN") (Some "Active") (Some "Minami")
    (Some "") (Some "approved") None None.

(** The initial-receipt entry of DU-001, still open. *)
Definition receipt_DU_001 : lh_row :=
  mk_lh 1 "DU-001" (Some "2022-04-01") None (Some "Germany") (Some "") None
    (Some "Initial receipt") None None (Some 0) (Some "Minami").

(** A store holding DU-001 and its initial receipt. *)
Definition store_DU_001 : Store :=
  mk_store [seed_DU_001] [receipt_DU_001] [] 2 [] [].

(** A POST by [user] carrying [f], on 2024-05-01, with mail switched on. *)
Definition post_by (user : string) (f : list (string * string)) : Ctx :=
  mk_ctx (Some user) "POST" f (mkdate 2024 5 1) 1714550400 true true.

(** DU-903, submitted for approval and still pending. *)
Definition pending_asset : asset_row :=
  mk_asset 10 "DU-903" "SN-WHILL-0903" "Pending unit" (Some "Demo Unit")
    (Some "WHILL Model C") (Some "2024-03-15") (Some 8500%Q) (Some "EUR")
    (Some "Declining Balance") (Some 60) (Some "NEN") (Some "Pending Approval")
    (Some "Minami") (Some "") (Some "pending") (Some 1710500000) None.

Definition store_pending_asset : Store :=
  mk_store [seed_DU_001; pending_asset] [receipt_DU_001] [] 2 [] [].

(** A sale of DU-001 saved as a draft. *)
Definition draft_sale : sd_row :=
  mk_sd 1 "DU-001" (Some "Sale") (Some "2024-04-30") (Some (795107 # 100))
    (Some 6000%Q) (Some "Clinic Munich") (Some "") (Some "INV-17") (Some "")
    (Some "draft") None None None (Some 1714400000) (Some "Minami").

Definition store_draft_sale : Store :=
  mk_store [seed_DU_001] [receipt_DU_001] [draft_sale] 2 [] [].

(** The draft sale after Minami submits it, and after Yuki then approves
    it. *)
Definition store_submitted_sale : Store :=
  exec (transaction_submit 1) (post_by "Minami" []) store_draft_sale.
Definition store_approved_sale : Store :=
  exec (approve_transaction 1) (post_by "Yuki" [("action", "approve")])
    store_submitted_sale.

(** The edit form of DU-001 with the status set to [st]. *)
Definition edit_form (st : string) : list (string * string) :=
  [("serial_number", "SN-WHILL-0001"); ("asset_name", "Model C Demo Unit 1");
   ("asset_type", "Demo Unit"); ("model", "WHILL Model C");
   ("purchase_date", "2022-04-01"); ("purchase_value", "8500");
   ("currency", "EUR"); ("dep_method", "Declining Balance");
   ("useful_life_months", "60"); ("current_location", "Germany");
   ("status", st); ("responsible", "Minami");
   ("notes", "Deployed to Munich customer")].

(* ------------------------------------------------------------------ *)
(** ** Tactics for running a handler *)

(** Unfold the monad and the helpers of a handler applied to a context and a
    store. *)
Ltac run_handler :=
  unfold require_login, is_approver,
    form_get, form_get_opt, form_item, session_item_user, flash,
    fetchone_asset, fetchone_tx, subscript, attribute,
    execute_update_assets, execute_update_location_history,
    execute_update_sales_disposal, execute_insert_location_history,
    send_approval_email;
  unfold bind, ret, ask, get, put, raise;
  cbv beta iota.

(** Reduce a handler step by step, rewriting with [tac] what each step
    exposes. *)
Ltac run_steps tac :=
  repeat first
    [ progress tac
    | progress cbn [negb opt_str_eqb String.eqb Ascii.eqb Bool.eqb fst snd
                    assets location_history sales_disposal
                    location_history_id_seq outbox flashes]
    | progress cbv beta iota ].

(** A world around the store that holds DU-001: the next asset id is 2, the
    next transaction id is 1, nobody is logged in on the browser. *)
Definition world_DU_001 : World := mk_world store_DU_001 2 1 [] None.

(** The form of a new asset DU-010, sent for approval or not. *)
Definition new_asset_form (send_approval : string) : list (string * string) :=
  [("asset_id", "DU-010"); ("serial_number", "SN-WHILL-0010");
   ("asset_name", "Model F Demo Unit"); ("asset_type", "Demo Unit");
   ("model", "WHILL Model F"); ("purchase_date", "2024-04-15");
   ("purchase_value", "4200.50"); ("currency", "EUR");
   ("dep_method", "Straight-Line"); ("useful_life_months", "48");
   ("current_location", "NEN"); ("status", "In Storage");
   ("responsible", "Minami"); ("notes", ""); ("send_approval", send_approval)].

(** A request from [user] carrying [f], coming from the page [from_page]. *)
Definition request_by (user : string) (f : list (string * string))
    (from_page : option string) : Request :=
  mk_request (post_by user f) from_page [].

(** The form of a sale of DU-001 for 6000, sent for approval or not. *)
Definition sale_form (send_approval : string) : list (string * string) :=
  [("tx_type", "Sale"); ("tx_date", "2024-05-01"); ("sale_price", "6000");
   ("buyer", "Clinic Munich"); ("buyer_contact", ""); ("invoice_ref", "INV-17");
   ("notes", ""); ("send_approval", send_approval)].

(** The same for a handler on the world. *)
Ltac run_world :=
  unfold execute_insert_assets, execute_insert_sales_disposal, send_request_mail,
    form_life, py_float, py_int;
  unfold lift, wbind, wret, wask, wget, wput, wraise;
  run_handler.

(** Case analysis on what a handler reads, in the order it reads it. *)
Ltac split_reads :=
  repeat (cbv beta iota; cbn [fst snd];
          match goal with
          | |- context [match session_user ?x with _ => _ end] =>
              destruct (session_user x) eqn:?
          | |- context [match find ?p ?l with _ => _ end] => destruct (find p l) eqn:?
          | |- context [match assoc ?k ?f with _ => _ end] => destruct (assoc k f) eqn:?
          | |- context [if (?a =? ?b)%string then _ else _] =>
              destruct (a =? b)%string eqn:?
          | |- context [if truthy_str ?x then _ else _] => destruct (truthy_str x) eqn:?
          | |- context [match float_of_string ?x with _ => _ end] =>
              destruct (float_of_string x) eqn:?
          | |- context [match int_of_string ?x with _ => _ end] =>
              destruct (int_of_string x) eqn:?
          | |- context [if existsb ?p ?l then _ else _] => destruct (existsb p l) eqn:?
          | |- context [if opt_str_eqb ?x ?v then _ else _] =>
              destruct (opt_str_eqb x v) eqn:?
          | |- context [if negb (EMAIL_ENABLED ?c) then _ else _] =>
              destruct (EMAIL_ENABLED c) eqn:?; cbn [negb]
          | |- context [if smtp_ok ?c then _ else _] => destruct (smtp_ok c) eqn:?
          end);
  cbv beta iota; cbn [fst snd].

(** Reduce the projections and setters of a store and a world given by their
    constructors. *)
Ltac reduce_world :=
  cbv beta iota delta
    [store assets_id_seq sales_disposal_id_seq sent session
     set_store set_assets_id_seq set_sales_disposal_id_seq set_sent set_session
     assets location_history sales_disposal location_history_id_seq outbox flashes].

Ltac split_world :=
  repeat (reduce_world;
          match goal with
          | |- context [match session_user ?x with _ => _ end] =>
              destruct (session_user x) eqn:?
          | |- context [match find ?p ?l with _ => _ end] => destruct (find p l) eqn:?
          | |- context [match assoc ?k ?f with _ => _ end] => destruct (assoc k f) eqn:?
          | |- context [if (?a =? ?b)%string then _ else _] =>
              destruct (a =? b)%string eqn:?
          | |- context [if truthy_str ?x then _ else _] => destruct (truthy_str x) eqn:?
          | |- context [match float_of_string ?x with _ => _ end] =>
              destruct (float_of_string x) eqn:?
          | |- context [match int_of_string ?x with _ => _ end] =>
              destruct (int_of_string x) eqn:?
          | |- context [if existsb ?p ?l then _ else _] => destruct (existsb p l) eqn:?
          | |- context [if existsb ?p ?l && ?b then _ else _] =>
              destruct (existsb p l) eqn:?; cbn [andb]
          | |- context [if negb (existsb ?p ?l) then _ else _] =>
              destruct (existsb p l) eqn:?; cbn [negb]
          | |- context [if opt_str_eqb ?x ?v then _ else _] =>
              destruct (opt_str_eqb x v) eqn:?
          | |- context [if negb (EMAIL_ENABLED ?c) then _ else _] =>
              destruct (EMAIL_ENABLED c) eqn:?; cbn [negb]
          | |- context [if smtp_ok ?c then _ else _] => destruct (smtp_ok c) eqn:?
          | |- context [calc_depreciation ?a ?c ?s] =>
              destruct (calc_depreciation a c s) as [[? | ?] ?] eqn:?
          end);
  reduce_world.

Ltac head_of t :=
  match t with
  | ?f _ => head_of f
  | _ => t
  end.

(** All the runs of handler [h] on the request and world of the goal: the
    outcome and the world each one ends in. *)
Ltac run_cases h :=
  match goal with
  | |- context [h ?r ?w] =>
      let o := fresh "o" in
      let w' := fresh "w'" in
      let E := fresh "E" in
      let hd := head_of h in
      destruct (h r w) as [o w'] eqn:E; cbn [fst snd]; revert E;
      destruct w as [[? ? ? ? ? ?] ? ? ? ?];
      unfold hd; run_world; split_world;
      intros E; injection E as <- <-
  end.

(** The same for a handler on the store. *)
Ltac run_store_cases h :=
  match goal with
  | |- context [h ?c ?s] =>
      let o := fresh "o" in
      let s' := fresh "s'" in
      let E := fresh "E" in
      let hd := head_of h in
      destruct (h c s) as [o s'] eqn:E; cbn [fst snd]; revert E;
      destruct s as [? ? ? ? ? ?];
      unfold hd; run_world; split_world;
      intros E; injection E as <- <-
  end.

(** Replace what a run knows of the calculator's result by what [lem], the
    lemma that gives it as a function of the date, says of it. *)
Ltac resolve_calc lem :=
  match goal with
  | H : calc_depreciation ?a ?c ?s = _ |- _ =>
      let f := fresh "f" in
      let Hf := fresh "Hf" in
      destruct (lem a) as [f Hf];
      rewrite (Hf c s) in H;
      first [discriminate H | injection H as <- <-]
  end.

(** Close a run whose case analysis contradicts itself on two literals. *)
Ltac absurd_literal :=
  match goal with
  | H : (_ =? _)%string = _ |- _ => solve [vm_compute in H; discriminate H]
  end.

Ltac rewrite_mail_flags :=
  repeat match goal with
         | H : EMAIL_ENABLED _ = _ |- _ => rewrite H; clear H
         | H : smtp_ok _ = _ |- _ => rewrite H; clear H
         end.

(* ================================================================== *)
(** * Properties *)

(* ------------------------------------------------------------------ *)
(** ** Rounding *)

Lemma round_half_even_near (q : Q) :
  (inject_Z (round_half_even q) - q <= 1 # 2)%Q /\
  (q - inject_Z (round_half_even q) <= 1 # 2)%Q.
Proof.
  unfold round_half_even.
  pose proof (Qfloor_le q) as Hlo.
  pose proof (Qlt_floor q) as Hhi.
  rewrite inject_Z_plus in Hhi. change (inject_Z 1) with 1%Q in Hhi.
  destruct (q - inject_Z (Qfloor q) ?= 1 # 2)%Q eqn:E.
  - apply Qeq_alt in E.
    destruct (Z.even (Qfloor q));
      [| rewrite inject_Z_plus; change (inject_Z 1) with 1%Q]; split; lra.
  - apply Qlt_alt in E. split; lra.
  - apply Qgt_alt in E. rewrite inject_Z_plus. change (inject_Z 1) with 1%Q.
    split; lra.
Qed.

Lemma round_half_even_mono (x y : Q) :
  (x <= y)%Q -> round_half_even x <= round_half_even y.
Proof.
  intros Hxy.
  pose proof (Qfloor_resp_le _ _ Hxy) as Hf.
  pose proof (Qfloor_le x) as Hx. pose proof (Qfloor_le y) as Hy.
  assert (Hbx : Qfloor x <= round_half_even x <= Qfloor x + 1).
  { unfold round_half_even.
    destruct (x - inject_Z (Qfloor x) ?= 1 # 2)%Q; [destruct (Z.even _) | |]; lia. }
  assert (Hby : Qfloor y <= round_half_even y <= Qfloor y + 1).
  { unfold round_half_even.
    destruct (y - inject_Z (Qfloor y) ?= 1 # 2)%Q; [destruct (Z.even _) | |]; lia. }
  destruct (Z.eq_dec (Qfloor x) (Qfloor y)) as [Heq | Hne]; [| lia].
  unfold round_half_even. rewrite <- Heq.
  destruct (x - inject_Z (Qfloor x) ?= 1 # 2)%Q eqn:Ex;
    destruct (y - inject_Z (Qfloor x) ?= 1 # 2)%Q eqn:Ey;
    try (destruct (Z.even (Qfloor x))); try lia; exfalso;
    repeat match goal with
    | H : (_ ?= _)%Q = Eq |- _ => apply Qeq_alt in H
    | H : (_ ?= _)%Q = Lt |- _ => apply Qlt_alt in H
    | H : (_ ?= _)%Q = Gt |- _ => apply Qgt_alt in H
    end; lra.
Qed.

Lemma round2_eq (x : Q) : (round2 x == inject_Z (round_half_even (x * 100)) / 100)%Q.
Proof.
  unfold round2. rewrite Qred_correct.
  rewrite (Qmake_Qdiv (round_half_even (x * 100)) 100). reflexivity.
Qed.

Lemma round2_near (x : Q) :
  (round2 x - x <= 1 # 200)%Q /\ (x - round2 x <= 1 # 200)%Q.
Proof.
  destruct (round_half_even_near (x * 100)) as [H1 H2].
  rewrite round2_eq.
  split.
  - setoid_replace (inject_Z (round_half_even (x * 100)) / 100 - x)%Q
      with ((inject_Z (round_half_even (x * 100)) - x * 100) / 100)%Q by field.
    apply Qle_shift_div_r; [reflexivity | lra].
  - setoid_replace (x - inject_Z (round_half_even (x * 100)) / 100)%Q
      with ((x * 100 - inject_Z (round_half_even (x * 100))) / 100)%Q by field.
    apply Qle_shift_div_r; [reflexivity | lra].
Qed.

Lemma round2_mono (x y : Q) : (x <= y)%Q -> (round2 x <= round2 y)%Q.
Proof.
  intros H. rewrite !round2_eq.
  assert (Hm : round_half_even (x * 100) <= round_half_even (y * 100)).
  { apply round_half_even_mono. lra. }
  rewrite Zle_Qle in Hm.
  apply Qle_shift_div_r; [reflexivity |].
  setoid_replace (inject_Z (round_half_even (y * 100)) / 100 * 100)%Q
    with (inject_Z (round_half_even (y * 100))) by field.
  exact Hm.
Qed.

Lemma py_min_cases (a b : Q) :
  ((b < a)%Q /\ py_min a b = b) \/ ((a <= b)%Q /\ py_min a b = a).
Proof.
  unfold py_min. destruct (b ?= a)%Q eqn:E.
  - right. apply Qeq_alt in E. split; [lra | reflexivity].
  - left. apply Qlt_alt in E. split; [lra | reflexivity].
  - right. apply Qgt_alt in E. split; [lra | reflexivity].
Qed.

Lemma py_max_cases (a b : Q) :
  ((a < b)%Q /\ py_max a b = b) \/ ((b <= a)%Q /\ py_max a b = a).
Proof.
  unfold py_max. destruct (b ?= a)%Q eqn:E.
  - right. apply Qeq_alt in E. split; [lra | reflexivity].
  - right. apply Qlt_alt in E. split; [lra | reflexivity].
  - left. apply Qgt_alt in E. split; [lra | reflexivity].
Qed.

Lemma Qeq_bool_false_of_neq (x y : Q) : ~ (x == y)%Q -> Qeq_bool x y = false.
Proof.
  intros H. destruct (Qeq_bool x y) eqn:E; [| reflexivity].
  apply Qeq_bool_eq in E. contradiction.
Qed.

(* ------------------------------------------------------------------ *)
(** ** Dates *)

Lemma fromisoformat_valid (s : string) (d : date) :
  fromisoformat s = Some d -> valid_date d = true.
Proof.
  unfold fromisoformat.
  repeat (destruct s as [| ? s]; try discriminate).
  destruct (digits4 _ _ _ _); try discriminate.
  destruct (digits2 _ _); try discriminate.
  destruct (digits2 _ _); try discriminate.
  destruct (is_dash _ && is_dash _ && valid_date _) eqn:E; try discriminate.
  intros H. injection H as <-.
  apply andb_true_iff in E. apply E.
Qed.

Lemma fromisoformat_truthy (s : string) (d : date) :
  fromisoformat s = Some d -> truthy_str s = true.
Proof. destruct s; [discriminate | reflexivity]. Qed.

Lemma valid_date_month (d : date) : valid_date d = true -> 1 <= month d <= 12.
Proof.
  unfold valid_date. rewrite !andb_true_iff. lia.
Qed.

Lemma months_between_nonneg (start d : date) : 0 <= months_between start d.
Proof. unfold months_between. lia. Qed.

Lemma months_between_mono (start d1 d2 : date) :
  valid_date d1 = true -> valid_date d2 = true -> date_leb d1 d2 = true ->
  months_between start d1 <= months_between start d2.
Proof.
  intros V1 V2 L.
  apply valid_date_month in V1. apply valid_date_month in V2.
  unfold date_leb in L. unfold months_between.
  rewrite orb_true_iff, !andb_true_iff, orb_true_iff, andb_true_iff in L.
  lia.
Qed.

(* ------------------------------------------------------------------ *)
(** ** The depreciation calculator *)

Lemma asset_life_nonzero (a : asset_row) : asset_life a <> 0.
Proof.
  unfold asset_life, py_or, truthy_int.
  destruct (useful_life_months a) as [n |]; [| lia].
  destruct (n =? 0) eqn:E; cbn; lia.
Qed.

Lemma inject_Z_nonzero (n : Z) : n <> 0 -> Qeq_bool (inject_Z n) 0 = false.
Proof.
  intros H. apply Qeq_bool_false_of_neq. intros E.
  unfold Qeq in E. cbn in E. lia.
Qed.

(** The zero snapshot of the guard and of the [except] branch. *)
Lemma calc_depreciation_zero (a : asset_row) (c : Ctx) (s : Store) :
  fromisoformat (asset_pd a) = None \/ (asset_pv a == 0)%Q \/ asset_meth a = "None" ->
  calc_depreciation a c s = (Ok (mk_snapshot 0 0 (asset_pv a) 0 false), s).
Proof.
  intros H. unfold calc_depreciation.
  destruct (negb (truthy_str (asset_pd a)) || Qeq_bool (asset_pv a) 0
            || (asset_meth a =? "None")%string) eqn:G; [reflexivity |].
  apply orb_false_iff in G. destruct G as [G Gm].
  apply orb_false_iff in G. destruct G as [Gd Gv].
  destruct H as [H | [H | H]].
  - now rewrite H.
  - apply Qeq_bool_iff in H. congruence.
  - rewrite H in Gm. discriminate.
Qed.

Lemma calc_depreciation_straight_line (a : asset_row) (start : date) (c : Ctx) (s : Store) :
  asset_meth a = "Straight-Line" ->
  fromisoformat (asset_pd a) = Some start ->
  ~ (asset_pv a == 0)%Q ->
  let pv := asset_pv a in
  let m := months_between start (today c) in
  let monthly := (pv / inject_Z (asset_life a))%Q in
  let accumulated := py_min pv (monthly * inject_Z m)%Q in
  calc_depreciation a c s =
  (Ok (mk_snapshot (round2 monthly) (round2 accumulated)
         (round2 (py_max 0 (pv - accumulated)%Q)) m (asset_life a <=? m)), s).
Proof.
  intros Hm Hd Hv. unfold calc_depreciation.
  rewrite Hm, Hd, (fromisoformat_truthy _ _ Hd), (Qeq_bool_false_of_neq _ _ Hv).
  cbn -[round2 py_min py_max months_between Qdiv Qmult Qminus inject_Z].
  unfold py_div. rewrite (inject_Z_nonzero _ (asset_life_nonzero a)).
  reflexivity.
Qed.

Lemma calc_depreciation_declining (a : asset_row) (start : date) (c : Ctx) (s : Store) :
  asset_meth a = "Declining Balance" ->
  fromisoformat (asset_pd a) = Some start ->
  ~ (asset_pv a == 0)%Q ->
  let pv := asset_pv a in
  let m := months_between start (today c) in
  let mr := (2 / inject_Z (asset_life a) / 12)%Q in
  let book := (pv * (1 - mr) ^ m)%Q in
  calc_depreciation a c s =
  (Ok (mk_snapshot (round2 (book * mr)) (round2 (pv - book)) (round2 book)
         m (asset_life a <=? m)), s).
Proof.
  intros Hm Hd Hv. unfold calc_depreciation.
  rewrite Hm, Hd, (fromisoformat_truthy _ _ Hd), (Qeq_bool_false_of_neq _ _ Hv).
  cbn -[round2 months_between Qdiv Qmult Qminus Qpower inject_Z].
  unfold py_div. rewrite (inject_Z_nonzero _ (asset_life_nonzero a)).
  cbn -[round2 months_between Qdiv Qmult Qminus Qpower inject_Z].
  unfold py_pow.
  pose proof (months_between_nonneg start (today c)) as Hn.
  replace (months_between start (today c) <? 0) with false
    by (symmetry; apply Z.ltb_ge; exact Hn).
  unfold bind, ret. rewrite andb_false_r. reflexivity.
Qed.

Lemma straight_line_accumulated_mono (pv mo : Q) (m1 m2 : Z) :
  (0 <= mo)%Q -> m1 <= m2 ->
  (py_min pv (mo * inject_Z m1) <= py_min pv (mo * inject_Z m2))%Q.
Proof.
  intros Hmo Hm. rewrite Zle_Qle in Hm.
  assert (Hp : (mo * inject_Z m1 <= mo * inject_Z m2)%Q) by nra.
  destruct (py_min_cases pv (mo * inject_Z m1)) as [[? ->] | [? ->]];
    destruct (py_min_cases pv (mo * inject_Z m2)) as [[? ->] | [? ->]]; lra.
Qed.

Lemma py_max_mono (a x y : Q) : (x <= y)%Q -> (py_max a x <= py_max a y)%Q.
Proof.
  intros H.
  destruct (py_max_cases a x) as [[? ->] | [? ->]];
    destruct (py_max_cases a y) as [[? ->] | [? ->]]; lra.
Qed.

Lemma monthly_amount_pos (pv : Q) (life : Z) :
  (0 < pv)%Q -> 0 < life ->
  (0 < pv / inject_Z life)%Q /\ (pv / inject_Z life * inject_Z life == pv)%Q.
Proof.
  intros Hpv Hl.
  assert (HL : (0 < inject_Z life)%Q) by (rewrite Zlt_Qlt in Hl; exact Hl).
  split.
  - apply Qlt_shift_div_l; [exact HL | lra].
  - field. lra.
Qed.



Lemma Qpower_le_1 (r : Q) (k : Z) :
  (0 < r)%Q -> (r <= 1)%Q -> 0 <= k -> (r ^ k <= 1)%Q.
Proof.
  intros H0 H1 Hk. revert k Hk.
  apply natlike_ind.
  - rewrite Qpower_0_r. lra.
  - intros k Hk IH.
    unfold Z.succ. rewrite Qpower_plus by lra. rewrite Qpower_1_r.
    pose proof (Qpower_0_lt r k H0). nra.
Qed.

Lemma Qpower_antitone (r : Q) (m1 m2 : Z) :
  (0 < r)%Q -> (r <= 1)%Q -> 0 <= m1 <= m2 -> (r ^ m2 <= r ^ m1)%Q.
Proof.
  intros H0 H1 Hm.
  replace m2 with (m1 + (m2 - m1)) by lia.
  rewrite Qpower_plus by lra.
  pose proof (Qpower_le_1 r (m2 - m1) H0 H1 ltac:(lia)).
  pose proof (Qpower_0_lt r m1 H0). nra.
Qed.

Lemma Qpower_succ_lt (r : Q) (m : Z) :
  (0 < r)%Q -> (r < 1)%Q -> (r ^ (m + 1) < r ^ m)%Q.
Proof.
  intros H0 H1.
  rewrite Qpower_plus by lra. rewrite Qpower_1_r.
  pose proof (Qpower_0_lt r m H0). nra.
Qed.

(** With a useful life of at least one month the monthly rate
    [(2 / life) / 12] lies in (0, 1/6]. *)
Lemma monthly_rate_bounds (life : Z) :
  0 < life ->
  (0 < 2 / inject_Z life / 12)%Q /\ (2 / inject_Z life / 12 <= 1 # 6)%Q.
Proof.
  intros Hl.
  assert (HL : (1 <= inject_Z life)%Q).
  { change 1%Q with (inject_Z 1). rewrite <- Zle_Qle. lia. }
  assert (E : (2 / inject_Z life / 12 == 1 / (6 * inject_Z life))%Q) by (field; lra).
  rewrite E. split.
  - apply Qlt_shift_div_l; lra.
  - apply Qle_shift_div_r; lra.
Qed.




Lemma calc_depreciation_other_method (a : asset_row) (start : date) (c : Ctx) (s : Store) :
  (asset_meth a =? "Straight-Line")%string = false ->
  (asset_meth a =? "Declining Balance")%string = false ->
  (asset_meth a =? "None")%string = false ->
  fromisoformat (asset_pd a) = Some start ->
  ~ (asset_pv a == 0)%Q ->
  let m := months_between start (today c) in
  calc_depreciation a c s =
  (Ok (mk_snapshot (round2 0) (round2 0) (round2 (asset_pv a)) m (asset_life a <=? m)), s).
Proof.
  intros H1 H2 H3 Hd Hv. unfold calc_depreciation.
  rewrite H1, H2, H3, Hd, (fromisoformat_truthy _ _ Hd), (Qeq_bool_false_of_neq _ _ Hv).
  reflexivity.
Qed.

(** The calculator returns a snapshot that is a function of the row and of
    today's date, and leaves the store alone, whatever the row holds. *)
Lemma calc_depreciation_function (a : asset_row) :
  exists f : date -> Snapshot,
    forall c s, calc_depreciation a c s = (Ok (f (today c)), s).
Proof.
  destruct (fromisoformat (asset_pd a)) as [start |] eqn:Hd.
  2:{ exists (fun _ => mk_snapshot 0 0 (asset_pv a) 0 false). intros c s.
      apply calc_depreciation_zero. now left. }
  destruct (Qeq_bool (asset_pv a) 0) eqn:Hv.
  { apply Qeq_bool_iff in Hv.
    exists (fun _ => mk_snapshot 0 0 (asset_pv a) 0 false). intros c s.
    apply calc_depreciation_zero. right. now left. }
  apply Qeq_bool_neq in Hv.
  destruct (asset_meth a =? "None")%string eqn:H3.
  { apply String.eqb_eq in H3.
    exists (fun _ => mk_snapshot 0 0 (asset_pv a) 0 false). intros c s.
    apply calc_depreciation_zero. right. now right. }
  destruct (asset_meth a =? "Straight-Line")%string eqn:H1.
  { apply String.eqb_eq in H1.
    exists (fun d =>
              let m := months_between start d in
              let monthly := (asset_pv a / inject_Z (asset_life a))%Q in
              let accumulated := py_min (asset_pv a) (monthly * inject_Z m)%Q in
              mk_snapshot (round2 monthly) (round2 accumulated)
                (round2 (py_max 0 (asset_pv a - accumulated)%Q)) m (asset_life a <=? m)).
    intros c s. apply calc_depreciation_straight_line; assumption. }
  destruct (asset_meth a =? "Declining Balance")%string eqn:H2.
  { apply String.eqb_eq in H2.
    exists (fun d =>
              let m := months_between start d in
              let mr := (2 / inject_Z (asset_life a) / 12)%Q in
              let book := (asset_pv a * (1 - mr) ^ m)%Q in
              mk_snapshot (round2 (book * mr)) (round2 (asset_pv a - book)) (round2 book)
                m (asset_life a <=? m)).
    intros c s. apply calc_depreciation_declining; assumption. }
  exists (fun d =>
            let m := months_between start d in
            mk_snapshot (round2 0) (round2 0) (round2 (asset_pv a)) m (asset_life a <=? m)).
  intros c s. apply calc_depreciation_other_method; assumption.
Qed.








(* ------------------------------------------------------------------ *)
(** ** Relocation *)

Lemma location_add_anonymous (aid : string) (c : Ctx) (s : Store) :
  session_user c = None ->
  location_add aid c s = (Ok (Redirect "login" None), s).
Proof.
  intros H. unfold location_add. run_handler. rewrite H. reflexivity.
Qed.

Lemma location_add_logged_in (aid : string) (c : Ctx) (s : Store) (u : string) :
  session_user c = Some u ->
  let closed :=
    sql_update (fun r => (lh_asset_id r =? aid)%string && is_open r)
      (set_date_to (Some (form_value c "date_from" ""))) (location_history s) in
  location_add aid c s =
  if existsb (fun a => (asset_id a =? aid)%string) (assets s) then
    (Ok (Redirect "asset_detail" (Some aid)),
     mk_store
       (sql_update (fun a => (asset_id a =? aid)%string)
          (set_location_and_status (Some (form_value c "location" ""))
             (Some (form_value c "status" "With Customer")) (now c)) (assets s))
       (closed ++
          [mk_lh (location_history_id_seq s) aid
             (Some (form_value c "date_from" "")) (Some (form_value c "date_to" ""))
             (Some (form_value c "location" "")) (Some (form_value c "country" ""))
             (Some (form_value c "customer" "")) (Some (form_value c "purpose" ""))
             (Some (form_value c "shipped_by" "")) (Some (form_value c "notes" ""))
             (Some (now c)) (Some u)])
       (sales_disposal s) (location_history_id_seq s + 1) (outbox s)
       (flashes s ++ [("Location updated.", "success")]))
  else
    (Raise IntegrityError,
     mk_store (assets s) closed (sales_disposal s) (location_history_id_seq s + 1)
       (outbox s) (flashes s)).
Proof.
  intros H closed. subst closed. unfold location_add. run_handler.
  repeat (rewrite H; cbv beta iota).
  cbn [assets location_history sales_disposal location_history_id_seq outbox flashes].
  destruct (existsb _ (assets s)); cbv beta iota; repeat (rewrite H; cbv beta iota);
    reflexivity.
Qed.

Lemma closed_entries_of_other_asset (aid aid' : string) (d : option string)
    (t : list lh_row) :
  aid' <> aid ->
  filter (fun r => (lh_asset_id r =? aid')%string && is_open r)
    (sql_update (fun r => (lh_asset_id r =? aid)%string && is_open r) (set_date_to d) t)
  = filter (fun r => (lh_asset_id r =? aid')%string && is_open r) t.
Proof.
  intros Hne. induction t as [| r t IH]; [reflexivity |].
  cbn [sql_update map filter].
  fold (sql_update (fun r => (lh_asset_id r =? aid)%string && is_open r)
          (set_date_to d) t).
  rewrite IH. cbv beta.
  destruct (lh_asset_id r =? aid)%string eqn:E; [| reflexivity].
  apply String.eqb_eq in E.
  destruct (is_open r) eqn:O; cbn [andb]; [| now rewrite O].
  cbn [set_date_to lh_asset_id].
  assert (E' : (lh_asset_id r =? aid')%string = false).
  { apply String.eqb_neq. congruence. }
  now rewrite E'.
Qed.

Lemma closed_entries_of_same_asset (aid d : string) (t : list lh_row) :
  d <> "" ->
  filter (fun r => (lh_asset_id r =? aid)%string && is_open r)
    (sql_update (fun r => (lh_asset_id r =? aid)%string && is_open r)
       (set_date_to (Some d)) t)
  = [].
Proof.
  intros Hd. induction t as [| r t IH]; [reflexivity |].
  cbn [sql_update map filter].
  fold (sql_update (fun r => (lh_asset_id r =? aid)%string && is_open r)
          (set_date_to (Some d)) t).
  rewrite IH. cbv beta.
  destruct ((lh_asset_id r =? aid)%string && is_open r) eqn:E.
  - assert (O : is_open (set_date_to (Some d) r) = false).
    { unfold is_open. cbn. now apply String.eqb_neq. }
    rewrite O, andb_false_r. reflexivity.
  - rewrite E. reflexivity.
Qed.

(** One relocation that names a start date keeps the invariant. *)
Lemma location_add_single_open (aid : string) (c : Ctx) (s : Store) :
  has_date_from c -> single_open s -> single_open (exec (location_add aid) c s).
Proof.
  intros Hd Hs. unfold exec.
  destruct (session_user c) as [u |] eqn:Hu;
    [| rewrite (location_add_anonymous aid c s Hu); exact Hs].
  rewrite (location_add_logged_in aid c s u Hu).
  intros aid'. unfold open_entries.
  destruct (String.eqb_spec aid' aid) as [-> | Hne].
  - destruct (existsb _ (assets s)); cbn [snd location_history].
    + rewrite filter_app, (closed_entries_of_same_asset aid _ _ Hd).
      cbn [app filter]. destruct (_ && _); cbn; lia.
    + rewrite (closed_entries_of_same_asset aid _ _ Hd). cbn. lia.
  - specialize (Hs aid'). unfold open_entries in Hs.
    destruct (existsb _ (assets s)); cbn [snd location_history].
    + rewrite filter_app, (closed_entries_of_other_asset aid aid' _ _ Hne).
      cbn [filter lh_asset_id].
      assert (E : (aid =? aid')%string = false) by (apply String.eqb_neq; congruence).
      rewrite E. cbn [andb]. rewrite app_nil_r. exact Hs.
    + rewrite (closed_entries_of_other_asset aid aid' _ _ Hne). exact Hs.
Qed.

(** C1 (as amended). Starting from a store with at most one open entry per
    asset, any sequence of relocations that each name a start date leaves at
    most one open entry per asset.  A relocation by a logged-in user for an
    existing asset sets the end date of every open entry of that asset to
    the new start date, then appends the new entry with the end date the
    form supplies (open only when that is empty), then sets the asset's
    current location and status from the form. *)
Theorem relocation_keeps_single_open :
  (forall (calls : list (string * Ctx)) (s : Store),
      Forall (fun call => has_date_from (snd call)) calls ->
      single_open s ->
      single_open (relocate_all calls s)) /\
  (forall (aid : string) (c : Ctx) (s : Store) (u : string),
      session_user c = Some u ->
      existsb (fun a => (asset_id a =? aid)%string) (assets s) = true ->
      let s' := exec (location_add aid) c s in
      location_history s' =
        sql_update (fun r => (lh_asset_id r =? aid)%string && is_open r)
          (set_date_to (Some (form_value c "date_from" ""))) (location_history s)
        ++ [mk_lh (location_history_id_seq s) aid
              (Some (form_value c "date_from" "")) (Some (form_value c "date_to" ""))
              (Some (form_value c "location" "")) (Some (form_value c "country" ""))
              (Some (form_value c "customer" "")) (Some (form_value c "purpose" ""))
              (Some (form_value c "shipped_by" "")) (Some (form_value c "notes" ""))
              (Some (now c)) (Some u)] /\
      assets s' =
        sql_update (fun a => (asset_id a =? aid)%string)
          (set_location_and_status (Some (form_value c "location" ""))
             (Some (form_value c "status" "With Customer")) (now c)) (assets s)).
Proof.
  split.
  - intros calls. induction calls as [| call calls IH]; intros s Hall Hs.
    + exact Hs.
    + inversion Hall as [| ? ? Hc Hrest]; subst.
      cbn [relocate_all fold_left]. apply IH; [exact Hrest |].
      apply location_add_single_open; assumption.
  - intros aid c s u Hu Ha s'. subst s'. unfold exec.
    rewrite (location_add_logged_in aid c s u Hu), Ha. cbn. split; reflexivity.
Qed.

(** Witness for [relocation_keeps_single_open]: DU-001 moves to France and
    then to Spain. *)
Lemma relocation_keeps_single_open_witness :
  single_open
    (relocate_all
       [("DU-001", post_by "Minami" [("date_from", "2024-05-01"); ("location", "France")]);
        ("DU-001", post_by "Sachiko" [("date_from", "2024-06-15"); ("location", "Spain")])]
       store_DU_001) /\
  map lh_date_to
    (location_history
       (exec (location_add "DU-001")
          (post_by "Minami" [("date_from", "2024-05-01"); ("location", "France")])
          store_DU_001))
  = [Some "2024-05-01"; Some ""].
Proof.
  split.
  - apply (proj1 relocation_keeps_single_open).
    + repeat constructor; discriminate.
    + intros aid. unfold open_entries, store_DU_001.
      cbn [location_history filter receipt_DU_001 lh_asset_id is_open lh_date_to].
      destruct ("DU-001" =? aid)%string; cbn; lia.
  - rewrite (proj1 (proj2 relocation_keeps_single_open "DU-001"
                      (post_by "Minami"
                         [("date_from", "2024-05-01"); ("location", "France")])
                      store_DU_001 "Minami" eq_refl eq_refl)).
    reflexivity.
Defined.

(** C1, counterexample. DU-001 has one open entry.  A relocation whose form
    leaves the start date empty leaves two open entries; a relocation whose
    form gives an end date inserts an entry that is not open, so that no
    entry of the asset is open afterwards. *)
Lemma relocation_counterexample :
  List.length
    (open_entries "DU-001"
       (exec (location_add "DU-001")
          (post_by "Minami" [("date_from", ""); ("location", "France")])
          store_DU_001)) = 2%nat /\
  open_entries "DU-001"
    (exec (location_add "DU-001")
       (post_by "Minami"
          [("date_from", "2024-05-01"); ("date_to", "2024-06-01"); ("location", "France")])
       store_DU_001) = [].
Proof. split; reflexivity. Qed.

(* ------------------------------------------------------------------ *)
(** ** Rows after an UPDATE *)

Lemma find_sql_update {R : Type} (w : R -> bool) (f : R -> R) (l : list R) (r : R) :
  (forall x, w (f x) = w x) ->
  find w l = Some r ->
  find w (sql_update w f l) = Some (f r).
Proof.
  intros Hw. induction l as [| x l IH]; [discriminate |].
  cbn [find sql_update map]. fold (sql_update w f l).
  destruct (w x) eqn:E.
  - intros H. injection H as <-. now rewrite Hw, E.
  - rewrite E. exact IH.
Qed.

Lemma in_sql_update {R : Type} (w : R -> bool) (f : R -> R) (l : list R) (x : R) :
  In x (sql_update w f l) ->
  exists r, In r l /\ x = (if w r then f r else r).
Proof.
  unfold sql_update. intros H. apply in_map_iff in H.
  destruct H as [r [E I]]. exists r. split; [exact I | now symmetry].
Qed.

Lemma existsb_sql_update {R : Type} (p w : R -> bool) (f : R -> R) (l : list R) :
  (forall x, p (f x) = p x) ->
  existsb p (sql_update w f l) = existsb p l.
Proof.
  intros Hp. induction l as [| x l IH]; [reflexivity |].
  cbn [existsb sql_update map]. fold (sql_update w f l). rewrite IH.
  destruct (w x); [now rewrite Hp | reflexivity].
Qed.

Lemma find_some_existsb {R : Type} (p q : R -> bool) (l : list R) (r : R) :
  find p l = Some r -> q r = true -> existsb q l = true.
Proof.
  intros H Hq. apply find_some in H. apply existsb_exists. exists r. tauto.
Qed.

(* ------------------------------------------------------------------ *)
(** ** Asset approval *)

Lemma approve_asset_approved (aid : Z) (c : Ctx) (s : Store) (u : string) (a : asset_row) :
  session_user c = Some u ->
  existsb (String.eqb u) APPROVERS = true ->
  assoc "action" (form c) = Some "approve" ->
  find (fun a => a_id a =? aid) (assets s) = Some a ->
  approve_asset aid c s =
  (Ok (Redirect "dashboard" None),
   mk_store
     (sql_update (fun a => a_id a =? aid)
        (set_approval_and_status (Some "approved") (Some "Active")) (assets s))
     (location_history s ++
        [mk_lh (location_history_id_seq s) (asset_id a) (purchase_date a) None
           (current_location a) (Some "") None (Some "Initial receipt") None None
           (Some (now c)) (Some u)])
     (sales_disposal s) (location_history_id_seq s + 1) (outbox s)
     (flashes s ++ [(("✅ Asset " ++ asset_id a ++ " approved.")%string, "success")])).
Proof.
  intros Hu Hap Hact Hfind.
  assert (E : existsb (fun a0 => (asset_id a0 =? asset_id a)%string)
                (sql_update (fun a0 => a_id a0 =? aid)
                   (set_approval_and_status (Some "approved") (Some "Active"))
                   (assets s)) = true).
  { rewrite existsb_sql_update by reflexivity.
    apply (find_some_existsb _ _ _ _ Hfind). apply String.eqb_refl. }
  unfold approve_asset. run_handler.
  run_steps ltac:(rewrite ?Hu, ?Hap, ?Hact, ?Hfind, ?E).
  reflexivity.
Qed.

(** C7. When an approver approves a pending asset, every row with that id
    gets approval status approved and status Active, and exactly one entry is
    appended to the location history: for that asset, purpose Initial
    receipt, starting on the asset's purchase date, with no end date (an
    open interval). *)
Theorem approve_asset_creates_initial_receipt :
  forall (aid : Z) (c : Ctx) (s : Store) (u : string) (a : asset_row),
    session_user c = Some u ->
    existsb (String.eqb u) APPROVERS = true ->
    assoc "action" (form c) = Some "approve" ->
    find (fun a => a_id a =? aid) (assets s) = Some a ->
    approval_status a = Some "pending" ->
    let s' := exec (approve_asset aid) c s in
    eval (approve_asset aid) c s = Ok (Redirect "dashboard" None) /\
    (exists a',
        find (fun a => a_id a =? aid) (assets s') = Some a' /\
        approval_status a' = Some "approved" /\ status a' = Some "Active") /\
    (forall a',
        In a' (assets s') -> a_id a' = aid ->
        approval_status a' = Some "approved" /\ status a' = Some "Active") /\
    (exists e,
        location_history s' = location_history s ++ [e] /\
        lh_asset_id e = asset_id a /\
        lh_purpose e = Some "Initial receipt" /\
        lh_date_from e = purchase_date a /\
        lh_date_to e = None /\
        is_open e = true).
Proof.
  intros aid c s u a Hu Hap Hact Hfind Hpending s'. subst s'. unfold eval, exec.
  rewrite (approve_asset_approved aid c s u a Hu Hap Hact Hfind).
  cbn [fst snd assets location_history].
  split; [reflexivity |]. split; [| split].
  - eexists. split.
    + apply find_sql_update; [reflexivity | exact Hfind].
    + split; reflexivity.
  - intros a' Hin Hid. apply in_sql_update in Hin.
    destruct Hin as [r [_ ->]].
    destruct (a_id r =? aid) eqn:E; [split; reflexivity |].
    apply Z.eqb_neq in E. contradiction.
  - eexists. split; [reflexivity |]. repeat split.
Qed.

(** Witness for [approve_asset_creates_initial_receipt]: Yuki approves the
    pending DU-903. *)
Lemma approve_asset_creates_initial_receipt_witness :
  eval (approve_asset 10) (post_by "Yuki" [("action", "approve")]) store_pending_asset
  = Ok (Redirect "dashboard" None).
Proof.
  exact (proj1 (approve_asset_creates_initial_receipt 10
                  (post_by "Yuki" [("action", "approve")]) store_pending_asset
                  "Yuki" pending_asset eq_refl eq_refl eq_refl eq_refl eq_refl)).
Defined.

(* ------------------------------------------------------------------ *)
(** ** Transaction approval *)

Lemma opt_str_eqb_false (x : option string) (v : string) :
  x <> Some v -> opt_str_eqb x v = false.
Proof.
  intros H. destruct x as [y |]; [| reflexivity].
  cbn. apply String.eqb_neq. congruence.
Qed.

Lemma approve_transaction_approved (tid : Z) (c : Ctx) (s : Store) (u : string) (t : sd_row) :
  session_user c = Some u ->
  existsb (String.eqb u) APPROVERS = true ->
  assoc "action" (form c) = Some "approve" ->
  find (fun x => sd_id x =? tid) (sales_disposal s) = Some t ->
  approve_transaction tid c s =
  (Ok (Redirect "dashboard" None),
   mk_store
     (sql_update (fun a => (asset_id a =? sd_asset_id t)%string)
        (set_status
           (Some (if opt_str_eqb (sd_tx_type t) "Sale" then "Sold" else "Disposed"))
           (now c)) (assets s))
     (location_history s)
     (sql_update (fun x => sd_id x =? tid)
        (set_decision (Some "approved") None (Some u) (now c)) (sales_disposal s))
     (location_history_id_seq s) (outbox s)
     (flashes s ++
        [(("✅ " ++ py_str (sd_tx_type t) ++ " for " ++ sd_asset_id t
             ++ " approved.")%string, "success")])).
Proof.
  intros Hu Hap Hact Hfind. unfold approve_transaction. run_handler.
  run_steps ltac:(rewrite ?Hu, ?Hap, ?Hact, ?Hfind).
  reflexivity.
Qed.

Lemma approve_transaction_rejected (tid : Z) (c : Ctx) (s : Store) (u : string) (t : sd_row) :
  session_user c = Some u ->
  existsb (String.eqb u) APPROVERS = true ->
  assoc "action" (form c) <> Some "approve" ->
  find (fun x => sd_id x =? tid) (sales_disposal s) = Some t ->
  approve_transaction tid c s =
  (Ok (Redirect "dashboard" None),
   mk_store (assets s) (location_history s)
     (sql_update (fun x => sd_id x =? tid)
        (set_decision (Some "rejected") (Some (Some (form_value c "reason" "")))
           (Some u) (now c)) (sales_disposal s))
     (location_history_id_seq s) (outbox s)
     (flashes s ++
        [(("❌ " ++ py_str (sd_tx_type t) ++ " for " ++ sd_asset_id t
             ++ " rejected.")%string, "error")])).
Proof.
  intros Hu Hap Hact Hfind. apply opt_str_eqb_false in Hact.
  unfold approve_transaction. run_handler.
  repeat first
    [ progress rewrite ?Hu, ?Hap, ?Hact, ?Hfind
    | progress cbn [negb fst snd assets location_history sales_disposal
                    location_history_id_seq outbox flashes]
    | progress cbv beta iota ].
  reflexivity.
Qed.

(** C8. When an approver approves a transaction, the transaction gets
    approval status approved, the approver's name and the time of the
    decision, and every row of the owning asset gets status Sold when the
    transaction is a Sale and Disposed otherwise, its other columns (the
    update time apart) staying as they were.  When the approver rejects it,
    the transaction gets approval status rejected, the reason, the
    approver's name and the time, and the assets table is left as it was. *)
Theorem approve_transaction_cascade :
  forall (tid : Z) (c : Ctx) (s : Store) (u : string) (t : sd_row),
    session_user c = Some u ->
    existsb (String.eqb u) APPROVERS = true ->
    find (fun x => sd_id x =? tid) (sales_disposal s) = Some t ->
    let s' := exec (approve_transaction tid) c s in
    (assoc "action" (form c) = Some "approve" ->
       (exists t',
           find (fun x => sd_id x =? tid) (sales_disposal s') = Some t' /\
           sd_approval_status t' = Some "approved" /\
           sd_approved_by t' = Some u /\
           sd_approved_at t' = Some (now c)) /\
       assets s' =
         sql_update (fun a => (asset_id a =? sd_asset_id t)%string)
           (set_status
              (Some (if opt_str_eqb (sd_tx_type t) "Sale" then "Sold" else "Disposed"))
              (now c)) (assets s) /\
       (forall a', In a' (assets s') -> asset_id a' = sd_asset_id t ->
          status a' =
            Some (if opt_str_eqb (sd_tx_type t) "Sale" then "Sold" else "Disposed"))) /\
    (assoc "action" (form c) <> Some "approve" ->
       (exists t',
           find (fun x => sd_id x =? tid) (sales_disposal s') = Some t' /\
           sd_approval_status t' = Some "rejected" /\
           sd_reject_reason t' = Some (form_value c "reason" "") /\
           sd_approved_by t' = Some u /\
           sd_approved_at t' = Some (now c)) /\
       assets s' = assets s).
Proof.
  intros tid c s u t Hu Hap Hfind s'. subst s'. unfold exec.
  split; intros Hact.
  - rewrite (approve_transaction_approved tid c s u t Hu Hap Hact Hfind).
    cbn [snd assets sales_disposal].
    split; [| split; [reflexivity |]].
    + eexists. split; [apply find_sql_update; [reflexivity | exact Hfind] |].
      repeat split.
    + intros a' Hin Hid. apply in_sql_update in Hin.
      destruct Hin as [r [_ ->]].
      destruct (asset_id r =? sd_asset_id t)%string eqn:E; [reflexivity |].
      apply String.eqb_neq in E. contradiction.
  - rewrite (approve_transaction_rejected tid c s u t Hu Hap Hact Hfind).
    cbn [snd assets sales_disposal].
    split; [| reflexivity].
    eexists. split; [apply find_sql_update; [reflexivity | exact Hfind] |].
    repeat split.
Qed.

(** Witness for [approve_transaction_cascade]: Lo approves the sale of
    DU-001, and Lo rejects it with a reason. *)
Lemma approve_transaction_cascade_witness :
  map status
    (assets (exec (approve_transaction 1) (post_by "Lo" [("action", "approve")])
               store_draft_sale))
  = [Some "Sold"] /\
  assets (exec (approve_transaction 1)
            (post_by "Lo" [("action", "reject"); ("reason", "price too low")])
            store_draft_sale)
  = assets store_draft_sale.
Proof.
  split.
  - rewrite (proj1 (proj2 (proj1
               (approve_transaction_cascade 1 (post_by "Lo" [("action", "approve")])
                  store_draft_sale "Lo" draft_sale eq_refl eq_refl eq_refl) eq_refl))).
    reflexivity.
  - exact (proj2 (proj2
             (approve_transaction_cascade 1
                (post_by "Lo" [("action", "reject"); ("reason", "price too low")])
                store_draft_sale "Lo" draft_sale eq_refl eq_refl eq_refl)
             ltac:(discriminate))).
Defined.

(* ------------------------------------------------------------------ *)
(** ** Submission of a transaction *)

Lemma transaction_submit_found (tid : Z) (c : Ctx) (s : Store) (u : string) (t : sd_row) :
  session_user c = Some u ->
  find (fun x => sd_id x =? tid) (sales_disposal s) = Some t ->
  transaction_submit tid c s =
  (Ok (Redirect "asset_detail" (Some (sd_asset_id t))),
   mk_store (assets s) (location_history s)
     (sql_update (fun x => sd_id x =? tid) (set_tx_approval (Some "pending"))
        (sales_disposal s))
     (location_history_id_seq s)
     (outbox s ++
        (if EMAIL_ENABLED c && smtp_ok c then
           [mk_email
              ("[WHILL Assets] Approval Request — " ++ py_str (sd_tx_type t)
                 ++ " for " ++ sd_asset_id t)%string
              (py_str (sd_tx_type t)) (sd_asset_id t)
              (match find (fun a => (asset_id a =? sd_asset_id t)%string) (assets s) with
               | Some a => asset_name a
               | None => ""
               end)
              (py_or truthy_float (sd_book_value_at_tx t) 0%Q)]
         else []))
     (flashes s ++ [("⏳ Submitted for approval.", "success")])).
Proof.
  intros Hu Hfind. unfold transaction_submit. run_handler.
  run_steps ltac:(rewrite ?Hu, ?Hfind).
  destruct (EMAIL_ENABLED c); [destruct (smtp_ok c) |];
    cbn [negb andb]; cbv beta iota;
    cbn [assets location_history sales_disposal location_history_id_seq outbox flashes];
    rewrite ?app_nil_r; reflexivity.
Qed.

(** C5 (as amended). The handlers do not look at a transaction's current
    approval status.  Submitting an existing transaction, in whatever state
    it is (approved and rejected included), sets its approval status to
    pending and hands one approval notification to the mail server on every
    call (none when mail is off or the exchange fails); a decision of an
    approver on an existing transaction, in whatever state it is, sets its
    approval status to approved or rejected. *)
Theorem transaction_submit_any_state :
  forall (tid : Z) (c : Ctx) (s : Store) (u : string) (t : sd_row),
    session_user c = Some u ->
    find (fun x => sd_id x =? tid) (sales_disposal s) = Some t ->
    (let s' := exec (transaction_submit tid) c s in
     (exists t',
         find (fun x => sd_id x =? tid) (sales_disposal s') = Some t' /\
         sd_approval_status t' = Some "pending") /\
     List.length (outbox s') =
       (List.length (outbox s) + (if EMAIL_ENABLED c && smtp_ok c then 1 else 0))%nat) /\
    (existsb (String.eqb u) APPROVERS = true ->
     let s' := exec (approve_transaction tid) c s in
     exists t',
       find (fun x => sd_id x =? tid) (sales_disposal s') = Some t' /\
       sd_approval_status t' =
         Some (if opt_str_eqb (assoc "action" (form c)) "approve"
               then "approved" else "rejected")).
Proof.
  intros tid c s u t Hu Hfind. split.
  - intros s'. subst s'. unfold exec.
    rewrite (transaction_submit_found tid c s u t Hu Hfind).
    cbn [snd sales_disposal outbox]. split.
    + eexists. split; [apply find_sql_update; [reflexivity | exact Hfind] | reflexivity].
    + rewrite length_app. destruct (EMAIL_ENABLED c && smtp_ok c); reflexivity.
  - intros Hap s'. subst s'. unfold exec.
    destruct (opt_str_eqb (assoc "action" (form c)) "approve") eqn:Hact.
    + assert (Hact' : assoc "action" (form c) = Some "approve").
      { destruct (assoc "action" (form c)) as [v |]; [| discriminate].
        cbn in Hact. apply String.eqb_eq in Hact. now subst. }
      rewrite (approve_transaction_approved tid c s u t Hu Hap Hact' Hfind).
      cbn [snd sales_disposal]. eexists.
      split; [apply find_sql_update; [reflexivity | exact Hfind] | reflexivity].
    + assert (Hact' : assoc "action" (form c) <> Some "approve").
      { intros E. rewrite E in Hact. discriminate. }
      rewrite (approve_transaction_rejected tid c s u t Hu Hap Hact' Hfind).
      cbn [snd sales_disposal]. eexists.
      split; [apply find_sql_update; [reflexivity | exact Hfind] | reflexivity].
Qed.

(** Witness for [transaction_submit_any_state]: Minami submits the sale of
    DU-001 again after Yuki has approved it. *)
Lemma transaction_submit_any_state_witness :
  exists t',
    find (fun x => sd_id x =? 1)
      (sales_disposal (exec (transaction_submit 1) (post_by "Minami" [])
                         store_approved_sale)) = Some t' /\
    sd_approval_status t' = Some "pending".
Proof.
  exact (proj1 (proj1 (transaction_submit_any_state 1 (post_by "Minami" [])
                         store_approved_sale "Minami"
                         (set_decision (Some "approved") None (Some "Yuki") 1714550400
                            (set_tx_approval (Some "pending") draft_sale))
                         eq_refl eq_refl))).
Defined.

(** C5, counterexample. A draft sale is submitted (one notification), then
    approved by Yuki; a second submit moves the approved sale back to pending
    and sends a second notification. *)
Lemma transaction_submit_counterexample :
  map sd_approval_status (sales_disposal store_submitted_sale) = [Some "pending"] /\
  List.length (outbox store_submitted_sale) = 1%nat /\
  map sd_approval_status (sales_disposal store_approved_sale) = [Some "approved"] /\
  map sd_approval_status
    (sales_disposal (exec (transaction_submit 1) (post_by "Minami" [])
                       store_approved_sale)) = [Some "pending"] /\
  List.length
    (outbox (exec (transaction_submit 1) (post_by "Minami" []) store_approved_sale))
  = 2%nat.
Proof. repeat split; reflexivity. Qed.

(* ------------------------------------------------------------------ *)
(** ** Direct edit of an asset *)

(** C6 (as amended). Approving a transaction is one way an asset becomes Sold
    or Disposed; the edit handler is another: an edit that goes through sets
    the status of the asset to whatever the form's status field holds (Active
    when the field is missing), Sold and Disposed included, and touches no
    transaction. *)
Theorem asset_edit_sets_any_status :
  forall (aid : string) (c : Ctx) (s : Store),
    eval (asset_edit aid) c s = Ok (Redirect "asset_detail" (Some aid)) ->
    let s' := exec (asset_edit aid) c s in
    (exists a',
        find (fun a => (asset_id a =? aid)%string) (assets s') = Some a' /\
        status a' = Some (form_value c "status" "Active")) /\
    (forall a',
        In a' (assets s') -> asset_id a' = aid ->
        status a' = Some (form_value c "status" "Active")) /\
    sales_disposal s' = sales_disposal s.
Proof.
  intros aid c s. unfold eval, exec, asset_edit, py_float, py_int. run_handler.
  repeat (cbv beta iota; cbn [fst snd];
          match goal with
          | |- context [match session_user ?x with _ => _ end] =>
              destruct (session_user x) eqn:?
          | |- context [match find ?p ?l with _ => _ end] => destruct (find p l) eqn:?
          | |- context [match assoc ?k ?f with _ => _ end] => destruct (assoc k f) eqn:?
          | |- context [if (?a =? ?b)%string then _ else _] =>
              destruct (a =? b)%string eqn:?
          | |- context [if truthy_str ?x then _ else _] => destruct (truthy_str x) eqn:?
          | |- context [match float_of_string ?x with _ => _ end] =>
              destruct (float_of_string x) eqn:?
          | |- context [match int_of_string ?x with _ => _ end] =>
              destruct (int_of_string x) eqn:?
          end);
    cbv beta iota; cbn [fst snd]; try discriminate.
  all: intros _;
    cbn [assets location_history sales_disposal location_history_id_seq outbox flashes].
  all: (split; [| split; [| reflexivity]]).
  all: try (eexists; split;
            [apply find_sql_update; [reflexivity | eassumption] | reflexivity]).
  all: intros a' Hin Hid; apply in_sql_update in Hin; destruct Hin as [r [_ ->]];
    destruct (asset_id r =? aid)%string eqn:E; [reflexivity |];
    apply String.eqb_neq in E; contradiction.
Qed.

(** Witness for [asset_edit_sets_any_status]: Minami edits DU-001 and picks
    Disposed in the status field. *)
Lemma asset_edit_sets_any_status_witness :
  exists a',
    find (fun a => (asset_id a =? "DU-001")%string)
      (assets (exec (asset_edit "DU-001") (post_by "Minami" (edit_form "Disposed"))
                 store_DU_001)) = Some a' /\
    status a' = Some "Disposed".
Proof.
  exact (proj1 (asset_edit_sets_any_status "DU-001"
                  (post_by "Minami" (edit_form "Disposed")) store_DU_001 eq_refl)).
Defined.

(** C6, counterexample. DU-001 has no transaction at all; an edit with Sold
    in the status field makes it Sold, and still no transaction exists. *)
Lemma asset_edit_counterexample :
  sales_disposal store_DU_001 = [] /\
  eval (asset_edit "DU-001") (post_by "Minami" (edit_form "Sold")) store_DU_001
  = Ok (Redirect "asset_detail" (Some "DU-001")) /\
  map status
    (assets (exec (asset_edit "DU-001") (post_by "Minami" (edit_form "Sold"))
               store_DU_001))
  = [Some "Sold"] /\
  sales_disposal
    (exec (asset_edit "DU-001") (post_by "Minami" (edit_form "Sold")) store_DU_001)
  = [].
Proof. repeat split; reflexivity. Qed.

(* ------------------------------------------------------------------ *)
(** ** New assets *)

(** X1. A submission for approval that goes through appends one asset row,
    with the next id of the sequence, approval status pending and status
    Pending Approval whatever status the form names; it writes no location
    entry and no transaction, and hands one approval request to the mail
    server (none when mail is off or the exchange fails). *)
Theorem asset_new_submits_for_approval :
  forall (r : Request) (w : World),
    weval asset_new r w = Ok (Redirect "assets" None) ->
    let c := ctx r in
    let s := store w in
    let w' := wexec asset_new r w in
    (exists a,
        assets (store w') = assets s ++ [a] /\
        a_id a = assets_id_seq w /\
        assoc "asset_id" (form c) = Some (asset_id a) /\
        approval_status a = Some "pending" /\
        status a = Some "Pending Approval") /\
    location_history (store w') = location_history s /\
    sales_disposal (store w') = sales_disposal s /\
    List.length (sent w') =
      (List.length (sent w) + (if EMAIL_ENABLED c && smtp_ok c then 1 else 0))%nat.
Proof.
  intros r w. unfold weval, wexec. run_cases asset_new.
  all: try discriminate.
  all: intros _; cbn.
  all: rewrite_mail_flags; rewrite ?length_app; cbn.
  all: (split; [eexists; repeat split; try reflexivity; assumption |]).
  all: repeat split; lia.
Qed.

(** Witness for [asset_new_submits_for_approval]: Minami submits DU-010 for
    approval; the form asks for status In Storage. *)
Lemma asset_new_submits_for_approval_witness :
  exists a,
    assets (store (wexec asset_new (request_by "Minami" (new_asset_form "yes") None)
                     world_DU_001))
    = assets store_DU_001 ++ [a] /\
    a_id a = 2 /\
    assoc "asset_id" (new_asset_form "yes") = Some (asset_id a) /\
    approval_status a = Some "pending" /\
    status a = Some "Pending Approval".
Proof.
  exact (proj1 (asset_new_submits_for_approval
                  (request_by "Minami" (new_asset_form "yes") None) world_DU_001
                  eq_refl)).
Defined.

(** X2. An addition without approval that goes through appends one asset row
    with approval status approved and the status of the form (Active when
    the form names none), and one location entry for it: purpose Initial
    receipt, from the purchase date, at the asset's location, open; it
    sends no approval request. *)
Theorem asset_new_adds_directly :
  forall (r : Request) (w : World) (aid : string),
    weval asset_new r w = Ok (Redirect "asset_detail" (Some aid)) ->
    let c := ctx r in
    let s := store w in
    let w' := wexec asset_new r w in
    exists a e,
      assets (store w') = assets s ++ [a] /\
      asset_id a = aid /\
      approval_status a = Some "approved" /\
      status a = Some (form_value c "status" "Active") /\
      location_history (store w') = location_history s ++ [e] /\
      lh_asset_id e = aid /\
      lh_purpose e = Some "Initial receipt" /\
      lh_date_from e = purchase_date a /\
      lh_location e = current_location a /\
      is_open e = true /\
      sent w' = sent w.
Proof.
  intros r w aid. unfold weval, wexec. run_cases asset_new.
  all: try discriminate.
  all: cbn [app existsb] in *.
  all: try absurd_literal.
  all: intros H; injection H as <-; cbn.
  all: try (do 2 eexists; repeat split; reflexivity).
  all: exfalso;
    match goal with
    | H : existsb _ (_ ++ _) = false |- _ =>
        rewrite existsb_app in H; cbn in H; rewrite String.eqb_refl in H;
          destruct (existsb _ _) in H; discriminate H
    end.
Qed.

(** Witness for [asset_new_adds_directly]: Minami adds DU-010 without
    approval. *)
Lemma asset_new_adds_directly_witness :
  exists a e,
    assets (store (wexec asset_new (request_by "Minami" (new_asset_form "no") None)
                     world_DU_001))
    = assets store_DU_001 ++ [a] /\
    asset_id a = "DU-010" /\
    approval_status a = Some "approved" /\
    status a = Some "In Storage" /\
    location_history
      (store (wexec asset_new (request_by "Minami" (new_asset_form "no") None)
                world_DU_001))
    = location_history store_DU_001 ++ [e] /\
    lh_asset_id e = "DU-010" /\
    lh_purpose e = Some "Initial receipt" /\
    lh_date_from e = purchase_date a /\
    lh_location e = current_location a /\
    is_open e = true /\
    sent (wexec asset_new (request_by "Minami" (new_asset_form "no") None) world_DU_001)
    = sent world_DU_001.
Proof.
  exact (asset_new_adds_directly (request_by "Minami" (new_asset_form "no") None)
           world_DU_001 "DU-010" eq_refl).
Defined.

(** What [asset_new] can do to the store: nothing to the tables, or append a
    fresh asset, with or without its first location entry. *)
Lemma asset_new_store_cases (r : Request) (w : World) :
  let s := store w in
  let s' := store (wexec asset_new r w) in
  same_tables s s' \/
  exists a,
    existsb (fun x => (a_id x =? a_id a) || (asset_id x =? asset_id a)%string)
      (assets s) = false /\
    assets s' = assets s ++ [a] /\
    sales_disposal s' = sales_disposal s /\
    outbox s' = outbox s /\
    (location_history s' = location_history s \/
     exists e,
       location_history s' = location_history s ++ [e] /\
       lh_asset_id e = asset_id a /\ is_open e = true).
Proof.
  unfold wexec. run_cases asset_new.
  all: cbn; unfold same_tables; cbn.
  all: try (left; repeat split; reflexivity).
  all: right; eexists; split; [| split; [reflexivity |]].
  all: try (cbn; eassumption).
  all: repeat split.
  all: try (left; reflexivity).
  all: right; eexists; repeat split.
Qed.

Lemma fresh_asset_id_not_in (l : list asset_row) (n : Z) (aid : string) :
  existsb (fun x => (a_id x =? n) || (asset_id x =? aid)%string) l = false ->
  ~ In aid (map asset_id l) /\ (forall x, In x l -> a_id x <> n).
Proof.
  intros H. split.
  - intros I. apply in_map_iff in I. destruct I as [x [E I]].
    assert (T : existsb (fun x => (a_id x =? n) || (asset_id x =? aid)%string) l = true).
    { apply existsb_exists. exists x. split; [exact I |].
      rewrite E, String.eqb_refl. apply orb_true_r. }
    congruence.
  - intros x I E.
    assert (T : existsb (fun x => (a_id x =? n) || (asset_id x =? aid)%string) l = true).
    { apply existsb_exists. exists x. split; [exact I |].
      rewrite E, Z.eqb_refl. reflexivity. }
    congruence.
Qed.

Lemma no_history_of_fresh_asset (s : Store) (aid : string) :
  history_refers_to_assets s ->
  ~ In aid (map asset_id (assets s)) ->
  filter (fun r => (lh_asset_id r =? aid)%string && is_open r) (location_history s) = [].
Proof.
  intros Hfk Hfresh.
  assert (A : forall l, (forall r, In r l -> In r (location_history s)) ->
              filter (fun r => (lh_asset_id r =? aid)%string && is_open r) l = []).
  { induction l as [| r l IH]; intros Hl; [reflexivity |].
    cbn [filter].
    destruct (lh_asset_id r =? aid)%string eqn:E.
    - exfalso. apply String.eqb_eq in E. apply Hfresh.
      specialize (Hfk r (Hl r (or_introl eq_refl))).
      apply existsb_exists in Hfk. destruct Hfk as [a [Ia Ea]].
      apply String.eqb_eq in Ea. apply in_map_iff. exists a. split; congruence.
    - cbn [andb]. apply IH. intros r' I. apply Hl. now right. }
  apply A. trivial.
Qed.

(** X3. A new asset never breaks the shape of the store: if asset ids are
    unique, every location entry belongs to an asset and no asset has two
    open entries, the same holds after [asset_new], whatever the request and
    however it ends. *)
Theorem asset_new_keeps_the_store_consistent :
  forall (r : Request) (w : World),
    unique_asset_ids (store w) ->
    history_refers_to_assets (store w) ->
    single_open (store w) ->
    let s' := store (wexec asset_new r w) in
    unique_asset_ids s' /\ history_refers_to_assets s' /\ single_open s'.
Proof.
  intros r w Hu Hfk Hso s'. subst s'.
  destruct (asset_new_store_cases r w) as [[Ea [El _]] | [a [Hfresh [Ea [_ [_ Hl]]]]]].
  - unfold unique_asset_ids, history_refers_to_assets, single_open, open_entries.
    rewrite Ea, El. auto.
  - destruct (fresh_asset_id_not_in _ _ _ Hfresh) as [Hnot _].
    assert (U : unique_asset_ids (store (wexec asset_new r w))).
    { unfold unique_asset_ids. rewrite Ea, map_app. cbn [map].
      apply NoDup_app; [exact Hu | repeat constructor; intros [] | ].
      intros x Ix [<- | []]. contradiction. }
    assert (Fold : forall rr, In rr (location_history (store w)) ->
              existsb (fun x => (asset_id x =? lh_asset_id rr)%string)
                (assets (store (wexec asset_new r w))) = true).
    { intros rr I. rewrite Ea, existsb_app, (Hfk rr I). reflexivity. }
    split; [exact U |].
    destruct Hl as [El | [e [El [Ee Eo]]]].
    + split.
      * intros rr I. rewrite El in I. auto.
      * intros aid. unfold open_entries. rewrite El. apply Hso.
    + split.
      * intros rr I. rewrite El in I. apply in_app_or in I.
        destruct I as [I | [<- | []]]; [auto |].
        rewrite Ea, existsb_app. cbn [existsb]. rewrite Ee, String.eqb_refl.
        now rewrite orb_true_r.
      * intros aid. unfold open_entries. rewrite El, filter_app. cbn [filter].
        destruct (lh_asset_id e =? aid)%string eqn:E.
        -- apply String.eqb_eq in E. rewrite Ee in E. subst aid.
           rewrite (no_history_of_fresh_asset _ _ Hfk Hnot). rewrite Eo. cbn. lia.
        -- cbn [andb]. rewrite app_nil_r. apply Hso.
Qed.

(** Witness for [asset_new_keeps_the_store_consistent]: DU-010 is added to
    the store that holds DU-001. *)
Lemma asset_new_keeps_the_store_consistent_witness :
  unique_asset_ids
    (store (wexec asset_new (request_by "Minami" (new_asset_form "no") None)
              world_DU_001)) /\
  history_refers_to_assets
    (store (wexec asset_new (request_by "Minami" (new_asset_form "no") None)
              world_DU_001)) /\
  single_open
    (store (wexec asset_new (request_by "Minami" (new_asset_form "no") None)
              world_DU_001)).
Proof.
  apply (asset_new_keeps_the_store_consistent
           (request_by "Minami" (new_asset_form "no") None) world_DU_001).
  - repeat constructor. intros [].
  - intros r [<- | []]. reflexivity.
  - intros aid. unfold open_entries, world_DU_001, store_DU_001.
    cbn [store location_history filter receipt_DU_001 lh_asset_id is_open lh_date_to].
    destruct ("DU-001" =? aid)%string; cbn; lia.
Defined.

Lemma existsb_asset_id_or (l : list asset_row) (n : Z) (aid : string) :
  existsb (fun a => (asset_id a =? aid)%string) l = true ->
  existsb (fun a => (a_id a =? n) || (asset_id a =? aid)%string) l = true.
Proof.
  intros H. apply existsb_exists in H. destruct H as [a [I E]].
  apply existsb_exists. exists a. split; [exact I |]. rewrite E. apply orb_true_r.
Qed.

(** X4. A POST to [asset_new] by a logged-in user whose form names an asset
    id that is already taken raises, and leaves every table and the sent
    mail as they were: no second asset, no location entry, no request. *)
Theorem asset_new_refuses_duplicate :
  forall (r : Request) (w : World) (u aid : string),
    session_user (ctx r) = Some u ->
    request_method (ctx r) = "POST" ->
    assoc "asset_id" (form (ctx r)) = Some aid ->
    existsb (fun a => (asset_id a =? aid)%string) (assets (store w)) = true ->
    let w' := wexec asset_new r w in
    (exists e, weval asset_new r w = Raise e) /\
    same_tables (store w) (store w') /\
    sent w' = sent w.
Proof.
  intros r w u aid Hu Hm Ha Hdup. unfold weval, wexec. run_cases asset_new.
  all: cbn in Hdup |- *; unfold same_tables; cbn.
  all: try congruence.
  all: try (rewrite Hm in *; discriminate).
  all: try (split; [eexists; reflexivity | repeat split]).
  all: exfalso;
    match goal with
    | H1 : assoc "asset_id" _ = Some ?x, H2 : existsb _ _ = false |- _ =>
        assert (x = aid) by congruence; subst x;
        rewrite (existsb_asset_id_or _ _ _ Hdup) in H2; discriminate H2
    end.
Qed.

(** Witness for [asset_new_refuses_duplicate]: a second DU-001. *)
Lemma asset_new_refuses_duplicate_witness :
  weval asset_new
    (request_by "Minami" (("asset_id", "DU-001") :: new_asset_form "no") None)
    world_DU_001
  = Raise IntegrityError /\
  assets (store (wexec asset_new
                   (request_by "Minami" (("asset_id", "DU-001") :: new_asset_form "no")
                      None)
                   world_DU_001))
  = assets store_DU_001.
Proof.
  split; [reflexivity |].
  exact (proj1 (proj1 (proj2 (asset_new_refuses_duplicate
           (request_by "Minami" (("asset_id", "DU-001") :: new_asset_form "no") None)
           world_DU_001 "Minami" "DU-001" eq_refl eq_refl eq_refl eq_refl)))).
Defined.

(** The store after a submission for approval that went through. *)
Lemma asset_new_pending_run (r : Request) (w : World) :
  weval asset_new r w = Ok (Redirect "assets" None) ->
  exists a,
    existsb (fun x => (a_id x =? a_id a) || (asset_id x =? asset_id a)%string)
      (assets (store w)) = false /\
    assets (store (wexec asset_new r w)) = assets (store w) ++ [a] /\
    location_history (store (wexec asset_new r w)) = location_history (store w) /\
    location_history_id_seq (store (wexec asset_new r w))
    = location_history_id_seq (store w) /\
    a_id a = assets_id_seq w /\
    assoc "asset_id" (form (ctx r)) = Some (asset_id a) /\
    approval_status a = Some "pending".
Proof.
  unfold weval, wexec. run_cases asset_new.
  all: try discriminate.
  all: intros _; cbn.
  all: eexists; split; [| split; [reflexivity |]].
  all: try (cbn; eassumption).
  all: repeat split; assumption.
Qed.

Lemma find_app_last {R : Type} (p : R -> bool) (l : list R) (x : R) :
  (forall y, In y l -> p y = false) -> p x = true -> find p (l ++ [x]) = Some x.
Proof.
  intros Hl Hx. induction l as [| y l IH]; cbn [app find].
  - now rewrite Hx.
  - rewrite (Hl y (or_introl eq_refl)). apply IH. intros z I. apply Hl. now right.
Qed.

(** X5. A submitted asset, once approved, has exactly one open location
    entry.  After a submission for approval that went through, an approval
    of the new asset id by an approver leaves the asset approved and Active
    with one open entry, its Initial receipt from the purchase date. *)
Theorem submitted_then_approved_asset :
  forall (r : Request) (w : World) (c2 : Ctx) (u : string),
    weval asset_new r w = Ok (Redirect "assets" None) ->
    history_refers_to_assets (store w) ->
    session_user c2 = Some u ->
    existsb (String.eqb u) APPROVERS = true ->
    assoc "action" (form c2) = Some "approve" ->
    let s2 :=
      exec (approve_asset (assets_id_seq w)) c2 (store (wexec asset_new r w)) in
    exists a e,
      find (fun x => a_id x =? assets_id_seq w) (assets s2) = Some a /\
      assoc "asset_id" (form (ctx r)) = Some (asset_id a) /\
      approval_status a = Some "approved" /\
      status a = Some "Active" /\
      open_entries (asset_id a) s2 = [e] /\
      lh_purpose e = Some "Initial receipt" /\
      lh_date_from e = purchase_date a.
Proof.
  intros r w c2 u Hrun Hfk Hu Hap Hact s2. subst s2.
  destruct (asset_new_pending_run r w Hrun)
    as [a [Hfresh [Ea [El [_ [Eid [Eform _]]]]]]].
  destruct (fresh_asset_id_not_in _ _ _ Hfresh) as [Hnot Hids].
  set (s1 := store (wexec asset_new r w)) in *.
  assert (Hfind : find (fun x => a_id x =? assets_id_seq w) (assets s1) = Some a).
  { rewrite Ea. apply find_app_last.
    - intros y I. apply Z.eqb_neq. rewrite <- Eid. now apply Hids.
    - rewrite Eid. apply Z.eqb_refl. }
  unfold exec. rewrite (approve_asset_approved _ c2 s1 u a Hu Hap Hact Hfind).
  cbn [snd assets]. do 2 eexists. split.
  { apply find_sql_update; [reflexivity | exact Hfind]. }
  cbn [asset_id approval_status status purchase_date set_approval_and_status].
  split; [exact Eform |]. split; [reflexivity |]. split; [reflexivity |].
  unfold open_entries. cbn [location_history]. rewrite El, filter_app.
  rewrite (no_history_of_fresh_asset _ _ Hfk Hnot).
  cbn [filter lh_asset_id is_open lh_date_to app]. rewrite String.eqb_refl.
  cbn [andb]. repeat split.
Qed.

(** Witness for [submitted_then_approved_asset]: Minami submits DU-010 and
    Yuki approves it. *)
Lemma submitted_then_approved_asset_witness :
  exists a e,
    find (fun x => a_id x =? 2)
      (assets (exec (approve_asset 2) (post_by "Yuki" [("action", "approve")])
                 (store (wexec asset_new
                           (request_by "Minami" (new_asset_form "yes") None)
                           world_DU_001)))) = Some a /\
    assoc "asset_id" (new_asset_form "yes") = Some (asset_id a) /\
    approval_status a = Some "approved" /\
    status a = Some "Active" /\
    open_entries (asset_id a)
      (exec (approve_asset 2) (post_by "Yuki" [("action", "approve")])
         (store (wexec asset_new (request_by "Minami" (new_asset_form "yes") None)
                   world_DU_001))) = [e] /\
    lh_purpose e = Some "Initial receipt" /\
    lh_date_from e = purchase_date a.
Proof.
  apply (submitted_then_approved_asset
           (request_by "Minami" (new_asset_form "yes") None) world_DU_001
           (post_by "Yuki" [("action", "approve")]) "Yuki" eq_refl).
  - intros r [<- | []]. reflexivity.
  - reflexivity.
  - reflexivity.
  - reflexivity.
Defined.

(** X6. Approval is not guarded by the asset's state: approving the same
    asset a second time appends a second open Initial-receipt entry, so the
    asset then has at least two open entries. *)
Theorem approve_asset_again_adds_a_second_receipt :
  forall (aid : Z) (c : Ctx) (s : Store) (u : string) (a : asset_row),
    session_user c = Some u ->
    existsb (String.eqb u) APPROVERS = true ->
    assoc "action" (form c) = Some "approve" ->
    find (fun a => a_id a =? aid) (assets s) = Some a ->
    let s2 := exec (approve_asset aid) c (exec (approve_asset aid) c s) in
    (2 <= List.length (open_entries (asset_id a) s2))%nat /\
    List.length (location_history s2) = (List.length (location_history s) + 2)%nat.
Proof.
  intros aid c s u a Hu Hap Hact Hfind s2. subst s2. unfold exec.
  rewrite (approve_asset_approved aid c s u a Hu Hap Hact Hfind). cbn [snd].
  match goal with
  | |- context [approve_asset aid c ?s1] =>
      assert (Hfind1 : find (fun a => a_id a =? aid) (assets s1)
                       = Some (set_approval_and_status (Some "approved")
                                 (Some "Active") a))
        by (cbn [assets]; apply find_sql_update; [reflexivity | exact Hfind]);
      rewrite (approve_asset_approved aid c s1 u _ Hu Hap Hact Hfind1)
  end.
  cbn [snd location_history set_approval_and_status asset_id purchase_date
       current_location].
  unfold open_entries. cbn [location_history].
  rewrite !filter_app, !length_app.
  cbn [filter lh_asset_id is_open lh_date_to]. rewrite String.eqb_refl.
  cbn [andb List.length]. split; lia.
Qed.

(** Witness for [approve_asset_again_adds_a_second_receipt]: Yuki approves
    the pending DU-903 twice. *)
Lemma approve_asset_again_adds_a_second_receipt_witness :
  (2 <= List.length
          (open_entries "DU-903"
             (exec (approve_asset 10) (post_by "Yuki" [("action", "approve")])
                (exec (approve_asset 10) (post_by "Yuki" [("action", "approve")])
                   store_pending_asset))))%nat.
Proof.
  exact (proj1 (approve_asset_again_adds_a_second_receipt 10
                  (post_by "Yuki" [("action", "approve")]) store_pending_asset
                  "Yuki" pending_asset eq_refl eq_refl eq_refl eq_refl)).
Defined.

(* ------------------------------------------------------------------ *)
(** ** New transactions *)

(** X7. A transaction that is recorded freezes the asset's book value of the
    day: the new row carries the book value [calc_depreciation] gives for the
    asset on the day of the request, starts as pending when approval is
    requested and as draft otherwise, with no decision on it; the asset
    itself and the location history are not touched. *)
Theorem transaction_add_freezes_book_value :
  forall (aid : string) (r : Request) (w : World),
    weval (transaction_add aid) r w = Ok (Redirect "asset_detail" (Some aid)) ->
    let c := ctx r in
    let s := store w in
    let w' := wexec (transaction_add aid) r w in
    exists a snap t,
      find (fun x => (asset_id x =? aid)%string) (assets s) = Some a /\
      eval (calc_depreciation a) c s = Ok snap /\
      sales_disposal (store w') = sales_disposal s ++ [t] /\
      sd_id t = sales_disposal_id_seq w /\
      sd_asset_id t = aid /\
      sd_book_value_at_tx t = Some (book_value snap) /\
      sd_approval_status t =
        Some (if opt_str_eqb (assoc "send_approval" (form c)) "yes"
              then "pending" else "draft") /\
      sd_approved_by t = None /\
      sd_approved_at t = None /\
      assets (store w') = assets s /\
      location_history (store w') = location_history s.
Proof.
  intros aid r w. unfold weval, wexec, eval. run_cases (transaction_add aid).
  all: try discriminate.
  all: intros _.
  all: match goal with
       | H : calc_depreciation ?a ?c ?s = _ |- _ =>
           let f := fresh "f" in
           let Hf := fresh "Hf" in
           destruct (calc_depreciation_function a) as [f Hf];
           exists a; rewrite (Hf c s) in H |- *; injection H as <- <-
       end.
  all: cbn.
  all: do 2 eexists; repeat split; try reflexivity; assumption.
Qed.

(** Witness for [transaction_add_freezes_book_value]: a sale of DU-001 on
    2024-05-01, saved as a draft. *)
Lemma transaction_add_freezes_book_value_witness :
  exists a snap t,
    find (fun x => (asset_id x =? "DU-001")%string) (assets store_DU_001) = Some a /\
    eval (calc_depreciation a) (post_by "Minami" (sale_form "no")) store_DU_001
    = Ok snap /\
    sales_disposal
      (store (wexec (transaction_add "DU-001")
                (request_by "Minami" (sale_form "no") None) world_DU_001))
    = [t] /\
    sd_id t = 1 /\
    sd_asset_id t = "DU-001" /\
    sd_book_value_at_tx t = Some (book_value snap) /\
    sd_approval_status t = Some "draft" /\
    sd_approved_by t = None /\
    sd_approved_at t = None /\
    assets (store (wexec (transaction_add "DU-001")
                     (request_by "Minami" (sale_form "no") None) world_DU_001))
    = assets store_DU_001 /\
    location_history
      (store (wexec (transaction_add "DU-001")
                (request_by "Minami" (sale_form "no") None) world_DU_001))
    = location_history store_DU_001.
Proof.
  exact (transaction_add_freezes_book_value "DU-001"
           (request_by "Minami" (sale_form "no") None) world_DU_001 eq_refl).
Defined.

(** X8. A transaction for an asset that does not exist raises before
    anything is written: the world is left exactly as it was. *)
Theorem transaction_add_unknown_asset :
  forall (aid : string) (r : Request) (w : World) (u : string),
    session_user (ctx r) = Some u ->
    find (fun x => (asset_id x =? aid)%string) (assets (store w)) = None ->
    transaction_add aid r w = (Raise AttributeError, w).
Proof.
  intros aid r w u Hu Hfind.
  destruct (transaction_add aid r w) as [o w'] eqn:E. revert E.
  destruct w as [[? ? ? ? ? ?] ? ? ? ?]. cbn in Hfind.
  unfold transaction_add. run_world. reduce_world.
  rewrite Hu. reduce_world. rewrite Hfind. reduce_world.
  intros E. now injection E as <- <-.
Qed.

(** Witness for [transaction_add_unknown_asset]: a sale of DU-404. *)
Lemma transaction_add_unknown_asset_witness :
  transaction_add "DU-404" (request_by "Minami" (sale_form "yes") None) world_DU_001
  = (Raise AttributeError, world_DU_001).
Proof.
  exact (transaction_add_unknown_asset "DU-404"
           (request_by "Minami" (sale_form "yes") None) world_DU_001 "Minami"
           eq_refl eq_refl).
Defined.

(* ------------------------------------------------------------------ *)
(** ** Rows are never deleted *)

Lemma rows_persist_refl {R : Type} (keep : R -> R -> Prop) (l : list R) :
  (forall x, keep x x) -> rows_persist keep l l.
Proof. intros Hk i x H. exists x. auto. Qed.

Lemma rows_persist_app_r {R : Type} (keep : R -> R -> Prop) (l l1 extra : list R) :
  rows_persist keep l l1 -> rows_persist keep l (l1 ++ extra).
Proof.
  intros H i x Hx. destruct (H i x Hx) as [x' [Hx' K]].
  exists x'. split; [| exact K].
  rewrite nth_error_app1; [exact Hx' |].
  apply nth_error_Some. congruence.
Qed.

Lemma rows_persist_sql_update {R : Type} (keep : R -> R -> Prop)
    (w : R -> bool) (f : R -> R) (l : list R) :
  (forall x, keep x x) -> (forall x, w x = true -> keep x (f x)) ->
  rows_persist keep l (sql_update w f l).
Proof.
  intros Hr Hf i x Hx. unfold sql_update. rewrite nth_error_map, Hx. cbn.
  eexists. split; [reflexivity |].
  destruct (w x) eqn:E; auto.
Qed.

Lemma rows_persist_closing (aid : string) (d : option string) (l : list lh_row) :
  rows_persist same_entry_but_end l
    (sql_update (fun r => (lh_asset_id r =? aid)%string && is_open r) (set_date_to d) l).
Proof.
  apply rows_persist_sql_update.
  - intros x. split; auto.
  - intros x Hx. apply andb_true_iff in Hx. destruct Hx as [_ Ho].
    split; [reflexivity | congruence].
Qed.

Ltac persist :=
  repeat apply rows_persist_app_r;
  first
    [ apply rows_persist_closing
    | apply rows_persist_refl; intros; repeat split; auto
    | apply rows_persist_sql_update; intros; repeat split; auto ].

(** X9. No handler deletes, reorders or re-identifies an asset: after any
    request to any of the eight handlers every asset row is still there, at
    its place, with the id, the asset id and the creation time it had. *)
Theorem assets_are_never_deleted :
  (forall aid c s, rows_persist same_asset (assets s) (assets (exec (approve_asset aid) c s))) /\
  (forall tid c s,
      rows_persist same_asset (assets s) (assets (exec (approve_transaction tid) c s))) /\
  (forall aid c s, rows_persist same_asset (assets s) (assets (exec (asset_edit aid) c s))) /\
  (forall aid c s, rows_persist same_asset (assets s) (assets (exec (location_add aid) c s))) /\
  (forall tid c s,
      rows_persist same_asset (assets s) (assets (exec (transaction_submit tid) c s))) /\
  (forall r w,
      rows_persist same_asset (assets (store w)) (assets (store (wexec asset_new r w)))) /\
  (forall aid r w,
      rows_persist same_asset (assets (store w))
        (assets (store (wexec (update_life aid) r w)))) /\
  (forall aid r w,
      rows_persist same_asset (assets (store w))
        (assets (store (wexec (transaction_add aid) r w)))).
Proof.
  unfold exec, wexec. repeat split; intros.
  - run_store_cases (approve_asset aid); cbn; persist.
  - run_store_cases (approve_transaction tid); cbn; persist.
  - run_store_cases (asset_edit aid); cbn; persist.
  - run_store_cases (location_add aid); cbn; persist.
  - run_store_cases (transaction_submit tid); cbn; persist.
  - run_cases asset_new; cbn; persist.
  - run_cases (update_life aid); cbn; persist.
  - run_cases (transaction_add aid); try resolve_calc calc_depreciation_function;
      cbn; persist.
Qed.

(** X10. Only [approve_asset] changes the approval status of an asset: after
    any request to any of the seven other handlers every asset row has the
    approval status it had. *)
Theorem approval_status_changes_only_in_approve_asset :
  let keep (a a' : asset_row) := approval_status a' = approval_status a in
  (forall tid c s,
      rows_persist keep (assets s) (assets (exec (approve_transaction tid) c s))) /\
  (forall aid c s, rows_persist keep (assets s) (assets (exec (asset_edit aid) c s))) /\
  (forall aid c s, rows_persist keep (assets s) (assets (exec (location_add aid) c s))) /\
  (forall tid c s,
      rows_persist keep (assets s) (assets (exec (transaction_submit tid) c s))) /\
  (forall r w,
      rows_persist keep (assets (store w)) (assets (store (wexec asset_new r w)))) /\
  (forall aid r w,
      rows_persist keep (assets (store w)) (assets (store (wexec (update_life aid) r w)))) /\
  (forall aid r w,
      rows_persist keep (assets (store w))
        (assets (store (wexec (transaction_add aid) r w)))).
Proof.
  unfold exec, wexec. repeat split; intros.
  - run_store_cases (approve_transaction tid); cbn; persist.
  - run_store_cases (asset_edit aid); cbn; persist.
  - run_store_cases (location_add aid); cbn; persist.
  - run_store_cases (transaction_submit tid); cbn; persist.
  - run_cases asset_new; cbn; persist.
  - run_cases (update_life aid); cbn; persist.
  - run_cases (transaction_add aid); try resolve_calc calc_depreciation_function;
      cbn; persist.
Qed.

(** X11. A logged-in user who is not an approver is turned away from both
    decision handlers: the answer is a redirect to the dashboard and the
    store is as it was but for the flashed refusal. *)
Theorem non_approver_is_turned_away :
  forall (c : Ctx) (s : Store) (u : string),
    session_user c = Some u ->
    existsb (String.eqb u) APPROVERS = false ->
    let refused :=
      (Ok (Redirect "dashboard" None),
       mk_store (assets s) (location_history s) (sales_disposal s)
         (location_history_id_seq s) (outbox s)
         (flashes s ++ [("Only Yuki or Lo can approve.", "error")])) in
    (forall aid, approve_asset aid c s = refused) /\
    (forall tid, approve_transaction tid c s = refused).
Proof.
  intros c s u Hu Hna refused. subst refused. split; intros.
  - unfold approve_asset. run_handler. run_steps ltac:(rewrite ?Hu, ?Hna).
    reflexivity.
  - unfold approve_transaction. run_handler. run_steps ltac:(rewrite ?Hu, ?Hna).
    reflexivity.
Qed.

(** Witness for [non_approver_is_turned_away]: Minami tries to approve the
    pending DU-903. *)
Lemma non_approver_is_turned_away_witness :
  assets (exec (approve_asset 10) (post_by "Minami" [("action", "approve")])
            store_pending_asset)
  = assets store_pending_asset.
Proof.
  unfold exec.
  rewrite (proj1 (non_approver_is_turned_away
                    (post_by "Minami" [("action", "approve")]) store_pending_asset
                    "Minami" eq_refl eq_refl) 10).
  reflexivity.
Defined.

(* ------------------------------------------------------------------ *)
(** ** Transactions and history are never rewritten *)

(** X12. No handler deletes or reorders a transaction or rewrites what was
    fixed when it was recorded: after any request to any of the eight
    handlers every transaction row is still there with its id, asset, type,
    date, frozen book value, sale price and author. *)
Theorem transactions_keep_their_frozen_columns :
  (forall aid c s,
      rows_persist same_frozen_columns (sales_disposal s)
        (sales_disposal (exec (approve_asset aid) c s))) /\
  (forall tid c s,
      rows_persist same_frozen_columns (sales_disposal s)
        (sales_disposal (exec (approve_transaction tid) c s))) /\
  (forall aid c s,
      rows_persist same_frozen_columns (sales_disposal s)
        (sales_disposal (exec (asset_edit aid) c s))) /\
  (forall aid c s,
      rows_persist same_frozen_columns (sales_disposal s)
        (sales_disposal (exec (location_add aid) c s))) /\
  (forall tid c s,
      rows_persist same_frozen_columns (sales_disposal s)
        (sales_disposal (exec (transaction_submit tid) c s))) /\
  (forall r w,
      rows_persist same_frozen_columns (sales_disposal (store w))
        (sales_disposal (store (wexec asset_new r w)))) /\
  (forall aid r w,
      rows_persist same_frozen_columns (sales_disposal (store w))
        (sales_disposal (store (wexec (update_life aid) r w)))) /\
  (forall aid r w,
      rows_persist same_frozen_columns (sales_disposal (store w))
        (sales_disposal (store (wexec (transaction_add aid) r w)))).
Proof.
  unfold exec, wexec. repeat split; intros.
  - run_store_cases (approve_asset aid); cbn; persist.
  - run_store_cases (approve_transaction tid); cbn; persist.
  - run_store_cases (asset_edit aid); cbn; persist.
  - run_store_cases (location_add aid); cbn; persist.
  - run_store_cases (transaction_submit tid); cbn; persist.
  - run_cases asset_new; cbn; persist.
  - run_cases (update_life aid); cbn; persist.
  - run_cases (transaction_add aid); try resolve_calc calc_depreciation_function;
      cbn; persist.
Qed.

(** X13. Only [approve_transaction] decides a transaction: after any request
    to any of the seven other handlers every transaction row has the
    approver, decision time and rejection reason it had, and the approval
    status it had or pending. *)
Theorem decisions_are_made_only_in_approve_transaction :
  (forall aid c s,
      rows_persist undecided (sales_disposal s)
        (sales_disposal (exec (approve_asset aid) c s))) /\
  (forall aid c s,
      rows_persist undecided (sales_disposal s)
        (sales_disposal (exec (asset_edit aid) c s))) /\
  (forall aid c s,
      rows_persist undecided (sales_disposal s)
        (sales_disposal (exec (location_add aid) c s))) /\
  (forall tid c s,
      rows_persist undecided (sales_disposal s)
        (sales_disposal (exec (transaction_submit tid) c s))) /\
  (forall r w,
      rows_persist undecided (sales_disposal (store w))
        (sales_disposal (store (wexec asset_new r w)))) /\
  (forall aid r w,
      rows_persist undecided (sales_disposal (store w))
        (sales_disposal (store (wexec (update_life aid) r w)))) /\
  (forall aid r w,
      rows_persist undecided (sales_disposal (store w))
        (sales_disposal (store (wexec (transaction_add aid) r w)))).
Proof.
  unfold exec, wexec. repeat split; intros.
  - run_store_cases (approve_asset aid); cbn; persist.
  - run_store_cases (asset_edit aid); cbn; persist.
  - run_store_cases (location_add aid); cbn; persist.
  - run_store_cases (transaction_submit tid); cbn; persist.
  - run_cases asset_new; cbn; persist.
  - run_cases (update_life aid); cbn; persist.
  - run_cases (transaction_add aid); try resolve_calc calc_depreciation_function;
      cbn; persist.
Qed.

(** X14. The location history is append-only: after any request to any of
    the eight handlers every entry is still there, at its place, with every
    column but the end date as it was, and an entry that was closed is
    exactly as it was. *)
Theorem location_history_is_append_only :
  (forall aid c s,
      rows_persist same_entry_but_end (location_history s)
        (location_history (exec (approve_asset aid) c s))) /\
  (forall tid c s,
      rows_persist same_entry_but_end (location_history s)
        (location_history (exec (approve_transaction tid) c s))) /\
  (forall aid c s,
      rows_persist same_entry_but_end (location_history s)
        (location_history (exec (asset_edit aid) c s))) /\
  (forall aid c s,
      rows_persist same_entry_but_end (location_history s)
        (location_history (exec (location_add aid) c s))) /\
  (forall tid c s,
      rows_persist same_entry_but_end (location_history s)
        (location_history (exec (transaction_submit tid) c s))) /\
  (forall r w,
      rows_persist same_entry_but_end (location_history (store w))
        (location_history (store (wexec asset_new r w)))) /\
  (forall aid r w,
      rows_persist same_entry_but_end (location_history (store w))
        (location_history (store (wexec (update_life aid) r w)))) /\
  (forall aid r w,
      rows_persist same_entry_but_end (location_history (store w))
        (location_history (store (wexec (transaction_add aid) r w)))).
Proof.
  unfold exec, wexec. repeat split; intros.
  - run_store_cases (approve_asset aid); cbn; persist.
  - run_store_cases (approve_transaction tid); cbn; persist.
  - run_store_cases (asset_edit aid); cbn; persist.
  - run_store_cases (location_add aid); cbn; persist.
  - run_store_cases (transaction_submit tid); cbn; persist.
  - run_cases asset_new; cbn; persist.
  - run_cases (update_life aid); cbn; persist.
  - run_cases (transaction_add aid); try resolve_calc calc_depreciation_function;
      cbn; persist.
Qed.

(* ------------------------------------------------------------------ *)
(** ** Requests that are turned down *)

(** X15. Without a session every handler answers with a redirect to the login
    page and changes nothing: not a row, not a flashed message, not a
    sequence, not a mail. *)
Theorem anonymous_requests_change_nothing :
  forall (c : Ctx),
    session_user c = None ->
    (forall aid s, approve_asset aid c s = (Ok (Redirect "login" None), s)) /\
    (forall tid s, approve_transaction tid c s = (Ok (Redirect "login" None), s)) /\
    (forall aid s, asset_edit aid c s = (Ok (Redirect "login" None), s)) /\
    (forall aid s, location_add aid c s = (Ok (Redirect "login" None), s)) /\
    (forall tid s, transaction_submit tid c s = (Ok (Redirect "login" None), s)) /\
    (forall ref ar w,
        asset_new (mk_request c ref ar) w = (Ok (Redirect "login" None), w)) /\
    (forall aid ref ar w,
        update_life aid (mk_request c ref ar) w = (Ok (Redirect "login" None), w)) /\
    (forall aid ref ar w,
        transaction_add aid (mk_request c ref ar) w = (Ok (Redirect "login" None), w)).
Proof.
  intros c H. repeat split; intros.
  - unfold approve_asset. run_handler. now rewrite H.
  - unfold approve_transaction. run_handler. now rewrite H.
  - unfold asset_edit. run_handler. now rewrite H.
  - unfold location_add. run_handler. now rewrite H.
  - unfold transaction_submit. run_handler. now rewrite H.
  - destruct w as [[? ? ? ? ? ?] ? ? ? ?].
    unfold asset_new. run_world. cbn [ctx]. rewrite H. reflexivity.
  - destruct w as [[? ? ? ? ? ?] ? ? ? ?].
    unfold update_life. run_world. cbn [ctx]. rewrite H. reflexivity.
  - destruct w as [[? ? ? ? ? ?] ? ? ? ?].
    unfold transaction_add. run_world. cbn [ctx]. rewrite H. reflexivity.
Qed.

(** Witness for [anonymous_requests_change_nothing]: a relocation of DU-001
    posted without a session. *)
Lemma anonymous_requests_change_nothing_witness :
  location_add "DU-001"
    (mk_ctx None "POST" [("date_from", "2024-05-01"); ("location", "France")]
       (mkdate 2024 5 1) 1714550400 true true)
    store_DU_001
  = (Ok (Redirect "login" None), store_DU_001).
Proof.
  exact (proj1 (proj2 (proj2 (proj2
           (anonymous_requests_change_nothing
              (mk_ctx None "POST" [("date_from", "2024-05-01"); ("location", "France")]
                 (mkdate 2024 5 1) 1714550400 true true) eq_refl)))) "DU-001"
           store_DU_001).
Defined.

Lemma sql_update_none {R : Type} (w : R -> bool) (f : R -> R) (l : list R) :
  find w l = None -> sql_update w f l = l.
Proof.
  induction l as [| x l IH]; [reflexivity |].
  cbn [find sql_update map]. fold (sql_update w f l).
  destruct (w x); [discriminate |]. intros H. now rewrite IH.
Qed.

(** X16. A decision or a submission about a row that does not exist writes
    nothing.  For an approver, [approve_asset] on an unknown id raises
    (TypeError when approving, AttributeError when rejecting) and
    [approve_transaction] on an unknown id raises TypeError, the store being
    exactly as it was; for any logged-in user, [transaction_submit] on an
    unknown id sends no mail and only flashes that the transaction was not
    found. *)
Theorem unknown_rows_are_not_written :
  forall (c : Ctx) (s : Store) (u : string),
    session_user c = Some u ->
    (forall aid,
        existsb (String.eqb u) APPROVERS = true ->
        find (fun a => a_id a =? aid) (assets s) = None ->
        approve_asset aid c s =
        (Raise (if opt_str_eqb (assoc "action" (form c)) "approve"
                then TypeError else AttributeError), s)) /\
    (forall tid,
        existsb (String.eqb u) APPROVERS = true ->
        find (fun x => sd_id x =? tid) (sales_disposal s) = None ->
        approve_transaction tid c s = (Raise TypeError, s)) /\
    (forall tid,
        find (fun x => sd_id x =? tid) (sales_disposal s) = None ->
        transaction_submit tid c s =
        (Ok (Redirect "transactions" None),
         mk_store (assets s) (location_history s) (sales_disposal s)
           (location_history_id_seq s) (outbox s)
           (flashes s ++ [("Transaction not found.", "error")]))).
Proof.
  intros c s u Hu. repeat split; intros.
  - destruct s as [? ? ? ? ? ?]. cbn [assets] in *.
    unfold approve_asset. run_handler. reduce_world.
    repeat first [ progress rewrite ?Hu, ?H, ?H0 | progress cbn [negb]
                 | progress reduce_world ].
    destruct (opt_str_eqb (assoc "action" (form c)) "approve"); reduce_world.
    + rewrite (sql_update_none _ _ _ H0). reflexivity.
    + reflexivity.
  - destruct s as [? ? ? ? ? ?]. cbn [sales_disposal] in *.
    unfold approve_transaction. run_handler. reduce_world.
    repeat first [ progress rewrite ?Hu, ?H, ?H0 | progress cbn [negb]
                 | progress reduce_world ].
    destruct (opt_str_eqb (assoc "action" (form c)) "approve"); reduce_world;
      repeat (rewrite ?Hu; reduce_world);
      rewrite (sql_update_none _ _ _ H0); reflexivity.
  - unfold transaction_submit. run_handler.
    run_steps ltac:(rewrite ?Hu, ?H). reflexivity.
Qed.

(** Witness for [unknown_rows_are_not_written]: Yuki approves asset 99 and
    transaction 99, Minami submits transaction 99. *)
Lemma unknown_rows_are_not_written_witness :
  approve_asset 99 (post_by "Yuki" [("action", "approve")]) store_draft_sale
  = (Raise TypeError, store_draft_sale) /\
  approve_transaction 99 (post_by "Yuki" [("action", "approve")]) store_draft_sale
  = (Raise TypeError, store_draft_sale) /\
  outbox (exec (transaction_submit 99) (post_by "Minami" []) store_draft_sale)
  = outbox store_draft_sale.
Proof.
  destruct (unknown_rows_are_not_written (post_by "Yuki" [("action", "approve")])
              store_draft_sale "Yuki" eq_refl) as [H1 [H2 _]].
  destruct (unknown_rows_are_not_written (post_by "Minami" []) store_draft_sale
              "Minami" eq_refl) as [_ [_ H3]].
  split; [exact (H1 99 eq_refl eq_refl) |].
  split; [exact (H2 99 eq_refl eq_refl) |].
  unfold exec. rewrite (H3 99 eq_refl). reflexivity.
Defined.

(* ------------------------------------------------------------------ *)
(** ** Rejection of an asset *)

Lemma approve_asset_rejected (aid : Z) (c : Ctx) (s : Store) (u : string) (a : asset_row) :
  session_user c = Some u ->
  existsb (String.eqb u) APPROVERS = true ->
  assoc "action" (form c) <> Some "approve" ->
  find (fun a => a_id a =? aid) (assets s) = Some a ->
  approve_asset aid c s =
  (Ok (Redirect "dashboard" None),
   mk_store
     (sql_update (fun a => a_id a =? aid)
        (set_approval_and_notes (Some "rejected")
           (Some ("[REJECTED: " ++ form_value c "reason" "" ++ "] "
                    ++ py_or truthy_str (notes a) "")%string)) (assets s))
     (location_history s) (sales_disposal s) (location_history_id_seq s) (outbox s)
     (flashes s ++ [(("❌ Asset " ++ asset_id a ++ " rejected.")%string, "error")])).
Proof.
  intros Hu Hap Hact Hfind. apply opt_str_eqb_false in Hact.
  unfold approve_asset. run_handler.
  repeat first
    [ progress rewrite ?Hu, ?Hap, ?Hact, ?Hfind
    | progress cbn [negb fst snd assets location_history sales_disposal
                    location_history_id_seq outbox flashes]
    | progress cbv beta iota ].
  reflexivity.
Qed.

(** X17. When an approver rejects an asset, its rows get approval status
    rejected and the reason is put in front of the notes they had, between
    [[REJECTED: ] and []]; the status, the location history and the
    transactions are left as they were. *)
Theorem reject_asset_keeps_the_notes :
  forall (aid : Z) (c : Ctx) (s : Store) (u : string) (a : asset_row),
    session_user c = Some u ->
    existsb (String.eqb u) APPROVERS = true ->
    assoc "action" (form c) <> Some "approve" ->
    find (fun a => a_id a =? aid) (assets s) = Some a ->
    let s' := exec (approve_asset aid) c s in
    (exists a',
        find (fun a => a_id a =? aid) (assets s') = Some a' /\
        approval_status a' = Some "rejected" /\
        notes a' = Some ("[REJECTED: " ++ form_value c "reason" "" ++ "] "
                           ++ match notes a with Some n => n | None => "" end)%string /\
        status a' = status a) /\
    location_history s' = location_history s /\
    sales_disposal s' = sales_disposal s.
Proof.
  intros aid c s u a Hu Hap Hact Hfind s'. subst s'. unfold exec.
  rewrite (approve_asset_rejected aid c s u a Hu Hap Hact Hfind).
  cbn [snd assets location_history sales_disposal].
  split; [| split; reflexivity].
  eexists. split; [apply find_sql_update; [reflexivity | exact Hfind] |].
  cbn [set_approval_and_notes approval_status notes status].
  repeat split. do 3 f_equal.
  unfold py_or, truthy_str. destruct (notes a) as [n |]; [| reflexivity].
  destruct n; reflexivity.
Qed.

(** Witness for [reject_asset_keeps_the_notes]: Lo rejects the pending
    DU-903. *)
Lemma reject_asset_keeps_the_notes_witness :
  location_history
    (exec (approve_asset 10)
       (post_by "Lo" [("action", "reject"); ("reason", "no invoice")])
       store_pending_asset)
  = location_history store_pending_asset.
Proof.
  exact (proj1 (proj2 (reject_asset_keeps_the_notes 10
           (post_by "Lo" [("action", "reject"); ("reason", "no invoice")])
           store_pending_asset "Lo" pending_asset eq_refl eq_refl
           ltac:(discriminate) eq_refl))).
Defined.

(* ------------------------------------------------------------------ *)
(** ** More on the edit of an asset *)

(** X18. An edit is all or nothing: unless it ends in the redirect to the
    asset's page, the store is exactly as it was, whether the asset is
    unknown, the request is a GET, a required field is missing or a number
    does not parse. *)
Theorem asset_edit_is_all_or_nothing :
  forall (aid : string) (c : Ctx) (s : Store),
    eval (asset_edit aid) c s <> Ok (Redirect "asset_detail" (Some aid)) ->
    exec (asset_edit aid) c s = s.
Proof.
  intros aid c s. unfold eval, exec. run_store_cases (asset_edit aid).
  all: intros H; try reflexivity.
  all: exfalso; apply H; reflexivity.
Qed.

(** Witness for [asset_edit_is_all_or_nothing]: an edit of DU-001 whose
    purchase value is not a number. *)
Lemma asset_edit_is_all_or_nothing_witness :
  eval (asset_edit "DU-001")
    (post_by "Minami" (("purchase_value", "a lot") :: edit_form "Active")) store_DU_001
  = Raise ValueError /\
  exec (asset_edit "DU-001")
    (post_by "Minami" (("purchase_value", "a lot") :: edit_form "Active")) store_DU_001
  = store_DU_001.
Proof.
  split; [reflexivity |].
  exact (asset_edit_is_all_or_nothing "DU-001"
           (post_by "Minami" (("purchase_value", "a lot") :: edit_form "Active"))
           store_DU_001 ltac:(discriminate)).
Defined.

(** X19. An edit moves an asset without a trace: an edit that goes through
    sets the current location to what the form holds, and writes no
    location entry and no mail; the assets with another id are as they
    were. *)
Theorem asset_edit_moves_without_history :
  forall (aid : string) (c : Ctx) (s : Store),
    eval (asset_edit aid) c s = Ok (Redirect "asset_detail" (Some aid)) ->
    let s' := exec (asset_edit aid) c s in
    (exists a',
        find (fun a => (asset_id a =? aid)%string) (assets s') = Some a' /\
        current_location a' = Some (form_value c "current_location" "")) /\
    location_history s' = location_history s /\
    outbox s' = outbox s /\
    rows_persist (fun a a' => asset_id a <> aid -> a' = a) (assets s) (assets s').
Proof.
  intros aid c s. unfold eval, exec. run_store_cases (asset_edit aid).
  all: try discriminate.
  all: intros _; cbn.
  all: (split; [| split; [reflexivity | split; [reflexivity |]]]).
  all: try (eexists; split;
            [apply find_sql_update; [reflexivity | eassumption] | reflexivity]).
  all: apply rows_persist_sql_update; [reflexivity |].
  all: intros x Hx Hne; apply String.eqb_eq in Hx; contradiction.
Qed.

(** Witness for [asset_edit_moves_without_history]: DU-001 is edited from
    Germany to Spain. *)
Lemma asset_edit_moves_without_history_witness :
  location_history
    (exec (asset_edit "DU-001")
       (post_by "Minami" (("current_location", "Spain") :: edit_form "Active"))
       store_DU_001)
  = location_history store_DU_001.
Proof.
  exact (proj1 (proj2 (asset_edit_moves_without_history "DU-001"
           (post_by "Minami" (("current_location", "Spain") :: edit_form "Active"))
           store_DU_001 eq_refl))).
Defined.

(* ------------------------------------------------------------------ *)
(** ** The depreciation period *)

(** X20. [update_life] never stores a useful life below one month: after an
    update by a logged-in user that goes through, every row of the asset has
    a useful life of max(1, n) months, n being the number of the form (60
    when the field is missing or empty), and the calculator uses that life;
    an update that raises leaves the world as it was. *)
Theorem update_life_keeps_the_life_positive :
  forall (aid : string) (r : Request) (w : World) (u : string),
    session_user (ctx r) = Some u ->
    let w' := wexec (update_life aid) r w in
    (forall resp,
        weval (update_life aid) r w = Ok resp ->
        exists n,
          eval form_life (ctx r) (store w) = Ok n /\
          forall a', In a' (assets (store w')) -> asset_id a' = aid ->
            useful_life_months a' = Some (Z.max 1 n) /\
            asset_life a' = Z.max 1 n /\ 1 <= asset_life a') /\
    (forall e, weval (update_life aid) r w = Raise e -> w' = w).
Proof.
  intros aid r w u Hu. unfold weval, wexec, eval.
  run_cases (update_life aid); cbn; unfold form_life; run_handler; cbn.
  all: try congruence.
  all: split; intros; try discriminate; try reflexivity.
  all: repeat match goal with
              | H : assoc _ _ = _ |- _ => rewrite H; clear H
              | H : truthy_str _ = _ |- _ => rewrite H; clear H
              | H : int_of_string _ = _ |- _ => rewrite H; clear H
              end; cbn.
  all: eexists; split; [reflexivity |].
  all: intros a' Hin Hid; apply in_sql_update in Hin; destruct Hin as [x [_ ->]].
  all: destruct (asset_id x =? aid)%string eqn:E;
    [| apply String.eqb_neq in E; contradiction].
  all: cbn [set_life useful_life_months]; unfold asset_life, py_or, truthy_int;
    cbn [set_life useful_life_months].
  all: first
         [ solve [repeat split; cbn; lia]
         | match goal with
           | |- context [Z.max 1 ?n] =>
               destruct (Z.max 1 n =? 0) eqn:Z0; cbn [negb];
               [apply Z.eqb_eq in Z0; lia | repeat split; lia]
           end ].
Qed.

(** Witness for [update_life_keeps_the_life_positive]: a life of -5 months
    asked for DU-001 is stored as 1. *)
Lemma update_life_keeps_the_life_positive_witness :
  exists n,
    eval form_life (post_by "Minami" [("useful_life_months", "-5")]) store_DU_001
    = Ok n /\
    forall a',
      In a' (assets (store (wexec (update_life "DU-001")
                              (request_by "Minami" [("useful_life_months", "-5")] None)
                              world_DU_001))) ->
      asset_id a' = "DU-001" ->
      useful_life_months a' = Some (Z.max 1 n) /\
      asset_life a' = Z.max 1 n /\ 1 <= asset_life a'.
Proof.
  exact (proj1 (update_life_keeps_the_life_positive "DU-001"
                  (request_by "Minami" [("useful_life_months", "-5")] None)
                  world_DU_001 "Minami" eq_refl)
           (Redirect "depreciation" None) eq_refl).
Defined.

(* ------------------------------------------------------------------ *)
(** ** Allowed uploads *)

Lemma has_dot_append (a b : string) : has_dot (a ++ b) = has_dot a || has_dot b.
Proof.
  induction a as [| c a IH]; [reflexivity |].
  cbn [String.append has_dot]. rewrite IH. apply orb_assoc.
Qed.

Lemma after_last_dot_append (base ext : string) :
  has_dot ext = false -> after_last_dot (base ++ "." ++ ext) = ext.
Proof.
  intros H. induction base as [| c base IH].
  - cbn. now rewrite H.
  - cbn [String.append after_last_dot].
    change (has_dot (base ++ String "." ext)) with (has_dot (base ++ "." ++ ext)).
    rewrite has_dot_append. cbn [String.append has_dot Ascii.eqb Bool.eqb orb].
    rewrite orb_true_r. exact IH.
Qed.

(** X21. Only what follows the last dot of a file name decides whether it may
    be uploaded, and letter case does not matter: a name [base.ext] whose
    [ext] has no dot is allowed exactly when [ext], lowered, is one of the
    nine allowed extensions, whatever [base] is; a name without a dot is
    never allowed. *)
Theorem allowed_file_reads_the_last_extension :
  (forall base ext,
      has_dot ext = false ->
      allowed_file (base ++ "." ++ ext) = existsb (String.eqb (lower ext)) ALLOWED_EXT) /\
  (forall f, has_dot f = false -> allowed_file f = false).
Proof.
  split.
  - intros base ext H. unfold allowed_file.
    rewrite has_dot_append, (after_last_dot_append base ext H).
    cbn [String.append has_dot Ascii.eqb Bool.eqb orb]. now rewrite orb_true_r.
  - intros f H. unfold allowed_file. now rewrite H.
Qed.

(** Witness for [allowed_file_reads_the_last_extension]: an upper-case
    extension passes, an allowed extension before the last one does not
    help, and a bare name fails. *)
Lemma allowed_file_reads_the_last_extension_witness :
  allowed_file "demo contract.v2.PDF" = true /\
  allowed_file "invoice.pdf.exe" = false /\
  allowed_file "pdf" = false.
Proof.
  destruct allowed_file_reads_the_last_extension as [H1 H2].
  split; [| split].
  - exact (H1 "demo contract.v2" "PDF" eq_refl).
  - exact (H1 "invoice.pdf" "exe" eq_refl).
  - exact (H2 "pdf" eq_refl).
Defined.

(* ------------------------------------------------------------------ *)
(** ** The depreciation page *)

(** The loop over the rows never raises and leaves the store alone: every
    row is paired with its snapshot of the day. *)
Lemma for_each_calc_depreciation (l : list asset_row) (c : Ctx) (s : Store) :
  exists l',
    for_each calc_depreciation l c s = (Ok l', s) /\
    map fst l' = l /\
    Forall (fun p => calc_depreciation (fst p) c s = (Ok (snd p), s)) l'.
Proof.
  induction l as [| a l IH].
  - exists []. repeat split. constructor.
  - destruct IH as (l' & Hrun & Hfst & Hall).
    destruct (calc_depreciation_function a) as [f Hf].
    exists ((a, f (today c)) :: l'). cbn [for_each]. unfold bind, ret.
    rewrite Hf, Hrun. repeat split.
    + cbn. now rewrite Hfst.
    + constructor; [apply Hf | exact Hall].
Qed.

(** What the depreciation page shows to a user who is logged in. *)
Lemma depreciation_run (order : list asset_row -> list asset_row)
    (r : Request) (w : World) (u : string) :
  session_user (ctx r) = Some u ->
  let f_type := match assoc "type" (args r) with Some v => v | None => "" end in
  exists rows,
    depreciation order r w =
    (Ok (Page "depreciation.html"
           (mk_depreciation_context rows
              (py_sum (map (fun p => monthly (snd p)) rows))
              (py_sum (map (fun p => book_value (snd p)) rows))
              (py_sum (map (fun p => asset_pv (fst p)) rows))
              f_type)), w) /\
    map fst rows = order (filter (on_depreciation_page f_type) (assets (store w))) /\
    Forall (fun p => calc_depreciation (fst p) (ctx r) (store w) = (Ok (snd p), store w))
      rows.
Proof.
  intros Hu f_type.
  destruct (for_each_calc_depreciation
              (order (filter (on_depreciation_page f_type) (assets (store w))))
              (ctx r) (store w)) as (rows & Hrun & Hfst & Hall).
  exists rows. split; [| split; assumption].
  unfold depreciation. run_world. rewrite Hu. cbv beta iota.
  fold f_type. cbn [store set_store]. 
  destruct w as [s n1 n2 ml ss]. cbn [store set_store assets_id_seq sales_disposal_id_seq sent session] in *.
  rewrite Hrun. reflexivity.
Qed.

Lemma opt_str_eqb_true (x : option string) (v : string) :
  opt_str_eqb x v = true <-> x = Some v.
Proof.
  destruct x as [y |]; cbn.
  - rewrite String.eqb_eq. split; congruence.
  - split; discriminate.
Qed.

(** The WHERE clause of the page, spelled out. *)
Lemma on_depreciation_page_spec (f_type : string) (a : asset_row) :
  on_depreciation_page f_type a = true <->
  approval_status a = Some "approved" /\
  (exists st, status a = Some st /\ st <> "Sold" /\ st <> "Disposed") /\
  (f_type <> "" -> asset_type a = Some f_type).
Proof.
  unfold on_depreciation_page, sql_not_in, truthy_str.
  rewrite !andb_true_iff, opt_str_eqb_true. split.
  - intros [[Hst Hap] Hty]. split; [exact Hap |]. split.
    + destruct (status a) as [st |]; [| discriminate]. exists st.
      cbn in Hst. rewrite orb_false_r in Hst.
      apply negb_true_iff, orb_false_iff in Hst. destruct Hst as [H1 H2].
      apply String.eqb_neq in H1, H2. now repeat split.
    + intros Hne. apply String.eqb_neq in Hne. rewrite Hne in Hty.
      now apply opt_str_eqb_true.
  - intros [Hap [[st [Est [H1 H2]]] Hty]]. repeat split; [| exact Hap |].
    + rewrite Est. cbn. apply String.eqb_neq in H1, H2. now rewrite H1, H2.
    + destruct (f_type =? "")%string eqn:E; [reflexivity |]. cbn.
      apply opt_str_eqb_true, Hty. now apply String.eqb_neq.
Qed.



(** The page depends on the store through the selected rows only. *)
Lemma depreciation_reads_the_selected_rows (order : list asset_row -> list asset_row)
    (r : Request) (w1 w2 : World) :
  (forall f_type,
     filter (on_depreciation_page f_type) (assets (store w1))
     = filter (on_depreciation_page f_type) (assets (store w2))) ->
  weval (depreciation order) r w1 = weval (depreciation order) r w2.
Proof.
  intros Hsel. unfold weval.
  destruct (session_user (ctx r)) as [u |] eqn:Hu.
  - destruct (depreciation_run order r w1 u Hu) as (rows1 & Hrun1 & Hfst1 & Hall1).
    destruct (depreciation_run order r w2 u Hu) as (rows2 & Hrun2 & Hfst2 & Hall2).
    rewrite Hrun1, Hrun2. cbn [fst].
    rewrite Hsel, <- Hfst2 in Hfst1.
    assert (E : rows1 = rows2).
    { clear Hrun1 Hrun2 Hfst2. revert rows2 Hfst1 Hall2.
      induction Hall1 as [| [a d] rows1 Hd _ IH]; intros [| [a2 d2] rows2] Hfst Hall2;
        try discriminate; [reflexivity |].
      cbn in Hfst. injection Hfst as Ea Hfst. subst a2.
      inversion Hall2 as [| ? ? Hd2 Hall2']; subst. cbn [fst snd] in Hd, Hd2.
      destruct (calc_depreciation_function a) as [f Hf].
      rewrite Hf in Hd, Hd2. injection Hd as <-. injection Hd2 as <-.
      f_equal. now apply IH. }
    now rewrite E.
  - unfold depreciation. run_world. now rewrite Hu.
Qed.





(* ------------------------------------------------------------------ *)
(** ** The transactions page *)

Lemma round2_proper (x y : Q) : (x == y)%Q -> round2 x = round2 y.
Proof.
  intros E. unfold round2, round_half_even.
  assert (E100 : (x * 100 == y * 100)%Q) by now rewrite E.
  rewrite (Qfloor_comp _ _ E100).
  assert (C : ((x * 100 - inject_Z (Qfloor (y * 100)) ?= 1 # 2)
               = (y * 100 - inject_Z (Qfloor (y * 100)) ?= 1 # 2))%Q).
  { apply Qcompare_comp; [now rewrite E100 | reflexivity]. }
  now rewrite C.
Qed.

Lemma py_or_truthy_float (x : Q) : (py_or truthy_float (Some x) 0 == x)%Q.
Proof.
  unfold py_or, truthy_float. destruct (Qeq_bool x 0) eqn:E; cbn; [| reflexivity].
  apply Qeq_bool_iff in E. now rewrite E.
Qed.

(** What the transactions page shows to a user who is logged in. *)
Lemma transactions_run
    (order : list (sd_row * asset_columns) -> list (sd_row * asset_columns))
    (r : Request) (w : World) (u : string) :
  session_user (ctx r) = Some u ->
  transactions order r w =
  (Ok (Page "transactions.html"
         (mk_transactions_context
            (map (fun p => (p, gain_loss (fst p)))
               (order (join_assets (sales_disposal (store w)) (assets (store w)))))
            (existsb (String.eqb u) APPROVERS))), w).
Proof.
  intros Hu. unfold transactions. run_world. rewrite Hu. cbv beta iota.
  rewrite Hu. now destruct w as [s n1 n2 ml ss].
Qed.

(** The row a recorded transaction adds. *)
Lemma transaction_add_run (aid : string) (r : Request) (w : World) :
  weval (transaction_add aid) r w = Ok (Redirect "asset_detail" (Some aid)) ->
  let c := ctx r in
  let s := store w in
  let w' := wexec (transaction_add aid) r w in
  exists a snap sp u,
    find (fun x => (asset_id x =? aid)%string) (assets s) = Some a /\
    eval (calc_depreciation a) c s = Ok snap /\
    match assoc "sale_price" (form c) with
    | Some v => if truthy_str v then float_of_string v = Some sp else sp = 0%Q
    | None => sp = 0%Q
    end /\
    session_user c = Some u /\
    existsb (fun x => sd_id x =? sales_disposal_id_seq w) (sales_disposal s) = false /\
    sales_disposal (store w') =
    sales_disposal s ++
      [mk_sd (sales_disposal_id_seq w) aid
         (Some (form_value c "tx_type" "Sale")) (Some (form_value c "tx_date" ""))
         (Some (book_value snap)) (Some sp)
         (Some (form_value c "buyer" "")) (Some (form_value c "buyer_contact" ""))
         (Some (form_value c "invoice_ref" "")) (Some (form_value c "notes" ""))
         (Some (if opt_str_eqb (assoc "send_approval" (form c)) "yes"
                then "pending" else "draft"))
         None None None (Some (now c)) (Some u)] /\
    assets (store w') = assets s.
Proof.
  intros H c s w'. subst c s w'. revert H.
  unfold weval, wexec, eval. run_cases (transaction_add aid).
  all: try discriminate.
  all: intros _.
  all: match goal with
       | H : calc_depreciation ?a ?c ?s = _ |- _ =>
           let f := fresh "f" in
           let Hf := fresh "Hf" in
           destruct (calc_depreciation_function a) as [f Hf];
           exists a; rewrite (Hf c s) in H |- *; injection H as <- <-
       end.
  all: cbn.
  all: match goal with H : Some ?x = Some ?y |- _ => injection H as -> end.
  all: do 3 eexists; repeat split; try reflexivity; try eassumption.
Qed.



(* ------------------------------------------------------------------ *)
(** ** Login *)

Lemma py_lstrip_spaces (n : nat) : py_lstrip (repeat " "%char n) = [].
Proof. induction n as [| n IH]; [reflexivity | exact IH]. Qed.

(** What [login] does, by the method and the name. *)
Lemma login_run (r : Request) (w : World) :
  let name := py_strip (form_value (ctx r) "user" "") in
  login r w =
  if (request_method (ctx r) =? "POST")%string then
    if (name =? "")%string then
      (Ok (Render "login.html"),
       set_store
         (mk_store (assets (store w)) (location_history (store w))
            (sales_disposal (store w)) (location_history_id_seq (store w))
            (outbox (store w))
            (flashes (store w) ++ [("Please select your name.", "error")])) w)
    else (Ok (Redirect "dashboard" None), set_session (Some name) w)
  else (Ok (Render "login.html"), w).
Proof.
  intros name. unfold login. run_world. fold name. unfold truthy_str.
  destruct (request_method (ctx r) =? "POST")%string; [| reflexivity].
  now destruct (name =? "")%string.
Qed.

(** X26. Logging in needs nothing but a name: whoever posts the name of an
    approver gets a session under that name without a table being touched,
    and a request carrying that session approves an asset. *)
Theorem login_gives_approver_rights_by_name :
  forall (name : string) (r : Request) (w : World) (c2 : Ctx) (aid : Z)
         (a : asset_row),
    In name APPROVERS ->
    request_method (ctx r) = "POST" ->
    assoc "user" (form (ctx r)) = Some name ->
    let w1 := wexec login r w in
    session_user c2 = session w1 ->
    assoc "action" (form c2) = Some "approve" ->
    find (fun x => a_id x =? aid) (assets (store w1)) = Some a ->
    weval login r w = Ok (Redirect "dashboard" None) /\
    store w1 = store w /\
    session w1 = Some name /\
    eval (approve_asset aid) c2 (store w1) = Ok (Redirect "dashboard" None) /\
    forall x, In x (assets (exec (approve_asset aid) c2 (store w1))) ->
              a_id x = aid -> approval_status x = Some "approved".
Proof.
  intros name r w c2 aid a Hin Hpost Huser w1 Hsess Hact Hfind.
  assert (Hname : py_strip name = name /\ (name =? "")%string = false
                  /\ existsb (String.eqb name) APPROVERS = true).
  { destruct Hin as [<- | [<- | []]]; repeat split. }
  destruct Hname as [Hstrip [Hne Hap]].
  assert (Hrun : login r w = (Ok (Redirect "dashboard" None), set_session (Some name) w)).
  { rewrite login_run. unfold form_value. rewrite Huser, Hstrip, Hne, Hpost.
    reflexivity. }
  unfold weval. subst w1. unfold wexec in *. rewrite Hrun in *.
  cbn [fst snd set_session store session] in *.
  split; [reflexivity |]. split; [reflexivity |]. split; [reflexivity |].
  unfold eval, exec.
  rewrite (approve_asset_approved aid c2 (store w) name a Hsess Hap Hact Hfind).
  cbn [fst snd assets]. split; [reflexivity |].
  intros x I Ex. unfold sql_update in I. apply in_map_iff in I.
  destruct I as [y [E I]]. destruct (a_id y =? aid) eqn:Ey.
  - now subst x.
  - subst x. apply Z.eqb_neq in Ey. contradiction.
Qed.

(** Witness for [login_gives_approver_rights_by_name]: somebody posts the
    name Yuki and approves the pending asset of the store. *)
Lemma login_gives_approver_rights_by_name_witness :
  let r := mk_request (mk_ctx None "POST" [("user", "Yuki")] (mkdate 2024 5 1) 0
                         false false) None [] in
  let w := mk_world store_pending_asset 11 1 [] None in
  let w1 := wexec login r w in
  let c2 := post_by "Yuki" [("action", "approve")] in
  weval login r w = Ok (Redirect "dashboard" None) /\
  store w1 = store w /\
  session w1 = Some "Yuki" /\
  eval (approve_asset 10) c2 (store w1) = Ok (Redirect "dashboard" None) /\
  forall x, In x (assets (exec (approve_asset 10) c2 (store w1))) ->
            a_id x = 10 -> approval_status x = Some "approved".
Proof.
  exact (login_gives_approver_rights_by_name "Yuki"
           (mk_request (mk_ctx None "POST" [("user", "Yuki")] (mkdate 2024 5 1) 0
                          false false) None [])
           (mk_world store_pending_asset 11 1 [] None)
           (post_by "Yuki" [("action", "approve")]) 10 pending_asset
           (or_introl eq_refl) eq_refl eq_refl eq_refl eq_refl eq_refl).
Defined.

(** X27. [login] never raises and never touches a table or the mail; it
    opens a session exactly on a POST whose name is not blank, under the
    name without its surrounding blanks, and otherwise shows the login page
    and leaves the session as it was.  A name of spaces only is blank. *)
Theorem login_opens_a_session_only_for_a_name :
  forall (r : Request) (w : World),
    let w' := wexec login r w in
    let name := py_strip (form_value (ctx r) "user" "") in
    same_tables (store w) (store w') /\
    (request_method (ctx r) = "POST" /\ name <> "" ->
     weval login r w = Ok (Redirect "dashboard" None) /\ session w' = Some name) /\
    (~ (request_method (ctx r) = "POST" /\ name <> "") ->
     weval login r w = Ok (Render "login.html") /\ session w' = session w) /\
    (forall n, form_value (ctx r) "user" "" = string_of_list_ascii (repeat " "%char n) ->
               name = "").
Proof.
  intros r w w' name. subst w'. unfold weval, wexec. rewrite login_run. fold name.
  destruct (request_method (ctx r) =? "POST")%string eqn:Em;
    [apply String.eqb_eq in Em | apply String.eqb_neq in Em];
    (destruct (name =? "")%string eqn:En;
     [apply String.eqb_eq in En | apply String.eqb_neq in En]).
  all: destruct w as [s n1 n2 ml ss]; cbn [fst snd store session set_store set_session].
  all: unfold same_tables; cbn [assets location_history sales_disposal outbox].
  all: repeat split; try tauto; try (intros [? ?]; congruence).
  all: intros n E; subst name; rewrite E; unfold py_strip;
    rewrite list_ascii_of_string_of_list_ascii, py_lstrip_spaces; reflexivity.
Qed.
